(** * Calendar slot resolution and booking reconciliation

    A shallow embedding of [client/src/components/CalendarBooking.tsx]:
    the timezone offset resolver, the conversion of provider slots to
    display times, the availability cache and its two fetches, month
    navigation, and the construction of the booking request.

    JavaScript strings are modelled as [string] (ASCII/UTF-8 bytes), JS
    integers as [Z], [Date] time values as milliseconds since the epoch
    in [Z].  The runtime's timezone database and its legacy date parser
    are parameters of the development. *)

From Stdlib Require Import ZArith List Bool Lia Ascii String.
From Stdlib Require Import DecimalString.
Import ListNotations.

Open Scope string_scope.
Open Scope Z_scope.

(** ** Strings *)

Module JsString.

Definition isDigit (c : ascii) : bool :=
  let n := nat_of_ascii c in (48 <=? n)%nat && (n <=? 57)%nat.

Definition digitValue (c : ascii) : Z := Z.of_nat (nat_of_ascii c) - 48.

Fixpoint allDigits (s : string) : bool :=
  match s with
  | EmptyString => true
  | String c r => isDigit c && allDigits r
  end.

(** Value of a run of decimal digits, most significant first. *)
Fixpoint digitsValueAcc (acc : Z) (s : string) : Z :=
  match s with
  | EmptyString => acc
  | String c r => digitsValueAcc (10 * acc + digitValue c) r
  end.

Definition digitsValue (s : string) : Z := digitsValueAcc 0 s.

(** [Number.prototype.toString()] / [String(n)] on an integer. *)
Definition toString (z : Z) : string := NilZero.string_of_int (Z.to_int z).

Fixpoint replicate (n : nat) (c : ascii) : string :=
  match n with
  | O => EmptyString
  | S k => String c (replicate k c)
  end.

(** [s.padStart(n, '0')]. *)
Definition padStart0 (n : nat) (s : string) : string :=
  replicate (n - String.length s) "0"%char ++ s.

(** [s.startsWith(p)]. *)
Definition startsWith (s p : string) : bool := String.prefix p s.

(** [s.includes(p)]. *)
Fixpoint includes (s p : string) : bool :=
  String.prefix p s ||
  match s with
  | EmptyString => false
  | String _ r => includes r p
  end.

(** [s.split(sep)] for a non-empty separator: [skip] counts the
    characters of a separator occurrence still to be dropped, [cur] is
    the piece being accumulated. *)
Fixpoint splitGo (sep : string) (skip : nat) (s cur : string) : list string :=
  match s with
  | EmptyString => [cur]
  | String c r =>
      match skip with
      | S k => splitGo sep k r cur
      | O =>
          if String.prefix sep s
          then cur :: splitGo sep (String.length sep - 1) r EmptyString
          else splitGo sep 0 r (cur ++ String c EmptyString)
      end
  end.

Definition split (s sep : string) : list string := splitGo sep 0 s EmptyString.

(** The last [n] characters of [s] (the whole of [s] when it is shorter). *)
Definition takeLast (n : nat) (s : string) : string :=
  String.substring (String.length s - n) n s.

(** [parseInt(s, 10)]: leading blanks, an optional sign, then the
    longest run of digits; [None] is NaN. *)
Definition isBlank (c : ascii) : bool :=
  let n := nat_of_ascii c in
  (n =? 32)%nat || ((9 <=? n)%nat && (n <=? 13)%nat).

Fixpoint dropBlanks (s : string) : string :=
  match s with
  | String c r => if isBlank c then dropBlanks r else s
  | EmptyString => s
  end.

Fixpoint digitRun (acc : option Z) (s : string) : option Z :=
  match s with
  | String c r =>
      if isDigit c
      then digitRun (Some (10 * match acc with Some a => a | None => 0 end
                           + digitValue c)) r
      else acc
  | EmptyString => acc
  end.

Definition parseInt (s : string) : option Z :=
  match dropBlanks s with
  | String "-"%char r => option_map Z.opp (digitRun None r)
  | String "+"%char r => digitRun None r
  | r => digitRun None r
  end.

End JsString.

Import JsString.

(** ** Numbers as the display-side arithmetic sees them *)

(** The result of [Number(s)] and of arithmetic on it.  Only integers and
    NaN occur for the strings the component produces ("HH:MM:SS" or
    "Invalid Date"): a part is read as an integer when it is a run of
    decimal digits (the empty run is 0), and as NaN otherwise; the other
    literal forms of StringToNumber (blanks, signs, fractions, exponents,
    hexadecimal) are outside this embedding. *)
Inductive jsnum : Type :=
| NaN
| Num (z : Z).

Definition Number (s : string) : jsnum :=
  if allDigits s then Num (digitsValue s) else NaN.

Definition jsLift2 (f : Z -> Z -> Z) (a b : jsnum) : jsnum :=
  match a, b with
  | Num x, Num y => Num (f x y)
  | _, _ => NaN
  end.

Definition jsAdd := jsLift2 Z.add.
Definition jsMul := jsLift2 Z.mul.
(** [Math.floor(a / b)] for an integer divisor [b > 0]. *)
Definition jsFloorDiv := jsLift2 Z.div.
(** [a % b]: the remainder takes the sign of the dividend. *)
Definition jsRem := jsLift2 Z.rem.

Definition jsToString (a : jsnum) : string :=
  match a with
  | NaN => "NaN"
  | Num z => toString z
  end.

(** [parseInt(s, 10)] as a number. *)
Definition parseInt10 (s : string) : jsnum :=
  match parseInt s with
  | Some z => Num z
  | None => NaN
  end.

(** [a > b] and [a < b]: false as soon as one side is NaN. *)
Definition jsGt (a b : jsnum) : bool :=
  match a, b with
  | Num x, Num y => y <? x
  | _, _ => false
  end.

Definition jsLt (a b : jsnum) : bool := jsGt b a.

(** ** Display-side end time (lines 419-438) *)

(** [getEndTime]: the array destructuring binds [hours] to the first
    piece and [minutes] to the second one, [undefined] (NaN in the sum)
    when there is none. *)
Definition getEndTime (startTime : string) : string :=
  if String.eqb startTime "" then ""
  else
    let parts := map Number (split startTime ":") in
    let hours := nth 0 parts NaN in
    let minutes := nth 1 parts NaN in
    let totalMinutes := jsAdd (jsAdd (jsMul hours (Num 60)) minutes) (Num 45) in
    let endHours := jsFloorDiv totalMinutes (Num 60) in
    let endMinutes := jsRem totalMinutes (Num 60) in
    padStart0 2 (jsToString endHours) ++ ":" ++ padStart0 2 (jsToString endMinutes).

(** [formatTimeForDisplay]: [parseInt(parts[0], 10)], [parts[1] ?? '00'],
    12-hour rendering with the Spanish suffix. *)
Definition formatTimeForDisplay (timeString : string) : string :=
  let parts := split timeString ":" in
  let hours := parseInt10 (nth 0 parts "") in
  let minutes := nth 1 parts "00" in
  let hours12 :=
    match hours with
    | NaN => "12" (* NaN % 12 is NaN, which is falsy: [|| 12] *)
    | Num h => padStart0 2 (toString (if Z.rem h 12 =? 0 then 12 else Z.rem h 12))
    end in
  let suffix :=
    match hours with
    | Num h => if 12 <=? h then "p. m." else "a. m."
    | NaN => "a. m." (* NaN >= 12 is false *)
    end in
  hours12 ++ ":" ++ minutes ++ " " ++ suffix.

(** ** The provider timestamp pattern (line 512) *)

(** One character class per position of
    [/^(\d{4}-\d{2}-\d{2})T(\d{2}):(\d{2}):(\d{2})([+-]\d{2}:\d{2})$/];
    the pattern has a fixed length of 25 characters. *)
Definition isChar (c : ascii) (x : ascii) : bool := Ascii.eqb x c.
Definition isSign (x : ascii) : bool := Ascii.eqb x "+" || Ascii.eqb x "-".

Definition ghlPattern : list (ascii -> bool) :=
  [isDigit; isDigit; isDigit; isDigit; isChar "-"; isDigit; isDigit;
   isChar "-"; isDigit; isDigit;
   isChar "T"; isDigit; isDigit;
   isChar ":"; isDigit; isDigit;
   isChar ":"; isDigit; isDigit;
   isSign; isDigit; isDigit; isChar ":"; isDigit; isDigit].

Fixpoint matchClasses (p : list (ascii -> bool)) (s : string) : bool :=
  match p, s with
  | [], EmptyString => true
  | f :: p', String c r => f c && matchClasses p' r
  | _, _ => false
  end.

(** The capture groups of a match. *)
Record GhlMatch : Type := mkGhlMatch {
  ghlDate : string;
  ghlHour : string;
  ghlMin : string;
  ghlSec : string;
  ghlOffsetStr : string
}.

Definition ghlMatch (s : string) : option GhlMatch :=
  if matchClasses ghlPattern s
  then Some {| ghlDate := String.substring 0 10 s;
               ghlHour := String.substring 11 2 s;
               ghlMin := String.substring 14 2 s;
               ghlSec := String.substring 17 2 s;
               ghlOffsetStr := String.substring 19 6 s |}
  else None.

(** ** Slots and the booking request *)

Record TimeSlot : Type := mkTimeSlot {
  startTime : string;
  endTime : string;
  available : bool;
  originalGHLTime : option string
}.

(** The errors [handleBooking] throws before it posts, named after their
    place in the function; the spec calls [ErrSlotNotFound]
    MissingProviderTimestamp and [ErrGHLFormat] MalformedProviderTimestamp. *)
Inductive BookingError : Type :=
| ErrNoContact      (* 'No se ha creado el contacto en GoHighLevel...' *)
| ErrSlotNotFound   (* 'No se pudo encontrar el horario seleccionado...' *)
| ErrGHLFormat      (* 'Formato de timestamp de GHL invalido' *)
| ErrInvalidDate.   (* 'Invalid date/time format' *)

(** Lines 519-532: the end timestamp from the capture groups. *)
Definition bookingEndTime (m : GhlMatch) : string :=
  let startMinutes :=
    jsAdd (jsMul (parseInt10 (ghlHour m)) (Num 60)) (parseInt10 (ghlMin m)) in
  let endMinutes := jsAdd startMinutes (Num 45) in
  let endHours := jsFloorDiv endMinutes (Num 60) in
  let endMins := jsRem endMinutes (Num 60) in
  let endHourStr := padStart0 2 (jsToString (jsRem endHours (Num 24))) in
  let endMinStr := padStart0 2 (jsToString endMins) in
  ghlDate m ++ "T" ++ endHourStr ++ ":" ++ endMinStr ++ ":" ++ ghlSec m
  ++ ghlOffsetStr m.

(** Lines 501-532: [availableSlots.find], the two guards, and the pair
    [(startTime, endTime)] of the request. *)
Definition findSlot (slots : list TimeSlot) (selectedTime : string) : option TimeSlot :=
  find (fun slot => String.eqb (startTime slot) selectedTime) slots.

(** [!selectedSlot.originalGHLTime]: absent or the empty string. *)
Definition lacksTimestamp (slot : TimeSlot) : bool :=
  match originalGHLTime slot with
  | None => true
  | Some s => String.eqb s ""
  end.

Definition bookingTimes (selectedSlot : option TimeSlot)
  : BookingError + (string * string) :=
  match selectedSlot with
  | None => inl ErrSlotNotFound
  | Some slot =>
      match originalGHLTime slot with
      | None => inl ErrSlotNotFound
      | Some ghlStartTime =>
          if String.eqb ghlStartTime "" then inl ErrSlotNotFound
          else
            match ghlMatch ghlStartTime with
            | None => inl ErrGHLFormat
            | Some m => inr (ghlStartTime, bookingEndTime m)
            end
      end
  end.

(** ** Calendar arithmetic and [Date] parsing *)

Definition isLeapYear (y : Z) : bool :=
  ((y mod 4 =? 0) && negb (y mod 100 =? 0)) || (y mod 400 =? 0).

(** Days of month [m] (1-12) of year [y]. *)
Definition daysInMonth (y m : Z) : Z :=
  if m =? 2 then (if isLeapYear y then 29 else 28)
  else if (m =? 4) || (m =? 6) || (m =? 9) || (m =? 11) then 30
  else 31.

(** Day number of the civil date [y-m-d], counted from 1970-01-01. *)
Definition daysFromCivil (y m d : Z) : Z :=
  let y' := if m <=? 2 then y - 1 else y in
  let era := y' / 400 in
  let yoe := y' - era * 400 in
  let doy := (153 * (m + (if 2 <? m then -3 else 9)) + 2) / 5 + d - 1 in
  let doe := yoe * 365 + yoe / 4 - yoe / 100 + doy in
  era * 146097 + doe - 719468.

(** The time value of a string in the provider's format
    "YYYY-MM-DDTHH:mm:ss+HH:mm" whose fields are all in range; [None]
    when the string is not of that form or a field is out of range. *)
Definition parseOffsetTimestamp (s : string) : option Z :=
  match ghlMatch s with
  | None => None
  | Some m =>
      let year := digitsValue (String.substring 0 4 (ghlDate m)) in
      let month := digitsValue (String.substring 5 2 (ghlDate m)) in
      let day := digitsValue (String.substring 8 2 (ghlDate m)) in
      let hh := digitsValue (ghlHour m) in
      let mi := digitsValue (ghlMin m) in
      let ss := digitsValue (ghlSec m) in
      let oh := digitsValue (String.substring 1 2 (ghlOffsetStr m)) in
      let om := digitsValue (String.substring 4 2 (ghlOffsetStr m)) in
      let sign := if String.prefix "-" (ghlOffsetStr m) then -1 else 1 in
      if (1 <=? month) && (month <=? 12) && (1 <=? day)
         && (day <=? daysInMonth year month)
         && (hh <=? 23) && (mi <=? 59) && (ss <=? 59)
         && (oh <=? 23) && (om <=? 59)
      then Some ((((daysFromCivil year month day * 24 + hh) * 60 + mi) * 60 + ss) * 1000
                 - sign * (oh * 60 + om) * 60000)
      else None
  end.

(** ** The runtime: timezone database, hour cycle, date parser *)

Section Runtime.

(** [zoneRules tz] is [None] for a name the runtime rejects with a
    RangeError; otherwise it gives, for each instant (ms since the
    epoch), the zone's offset from UTC in minutes, east positive. *)
Variable zoneRules : string -> option (Z -> Z).

(** Whether the runtime resolves [hour12: false] in the en-US locale to
    the 24-hour cycle that prints midnight as 24 (h24) rather than 00. *)
Variable hour24 : bool.

(** What [new Date(s)] yields on the strings [parseOffsetTimestamp]
    does not settle ([None]: Invalid Date). *)
Variable legacyDateParse : string -> option Z.

(** [new Date(s).getTime()], [None] for NaN. *)
Definition dateParse (s : string) : option Z :=
  match parseOffsetTimestamp s with
  | Some t => Some t
  | None => legacyDateParse s
  end.

(** The 2-digit fields of a wall-clock reading [ms] (already shifted
    into the zone). *)
Definition hourField (ms : Z) : string :=
  let h := (ms / 3600000) mod 24 in
  padStart0 2 (toString (if hour24 && (h =? 0) then 24 else h)).

Definition minuteField (ms : Z) : string :=
  padStart0 2 (toString ((ms / 60000) mod 60)).

Definition secondField (ms : Z) : string :=
  padStart0 2 (toString ((ms / 1000) mod 60)).

(** Wall clock of instant [t] in a zone with rules [f]. *)
Definition wallClock (f : Z -> Z) (t : Z) : Z := t + 60000 * f t.

Definition utcRules : Z -> Z := fun _ => 0.

(** [getTimezoneOffset] (lines 37-81); [None] when constructing the
    formatter for [timezone] throws. *)
Definition getTimezoneOffset (timezone : string) (date : Z) : option jsnum :=
  match zoneRules timezone with
  | None => None
  | Some f =>
      let orZero (v : string) := if String.eqb v "" then "0" else v in
      let utcHour := parseInt10 (orZero (hourField (wallClock utcRules date))) in
      let utcMin := parseInt10 (orZero (minuteField (wallClock utcRules date))) in
      let tzHour := parseInt10 (orZero (hourField (wallClock f date))) in
      let tzMin := parseInt10 (orZero (minuteField (wallClock f date))) in
      let utcMinutes := jsAdd (jsMul utcHour (Num 60)) utcMin in
      let tzMinutes := jsAdd (jsMul tzHour (Num 60)) tzMin in
      let diff := jsAdd tzMinutes (jsMul (Num (-1)) utcMinutes) in
      let diff := if jsGt diff (Num (12 * 60)) then jsAdd diff (Num (- (24 * 60))) else diff in
      let diff := if jsLt diff (Num (- (12 * 60))) then jsAdd diff (Num (24 * 60)) else diff in
      Some diff
  end.

(** [d.toLocaleString('en-US', { timeZone, hour12: false, hour:
    '2-digit', minute: '2-digit', second: '2-digit' })]: "Invalid Date"
    for a NaN time value (checked before the formatter is built),
    [None] for a RangeError on the zone name. *)
Definition toLocaleTimeString (timeZone : string) (d : option Z) : option string :=
  match d with
  | None => Some "Invalid Date"
  | Some t =>
      match zoneRules timeZone with
      | None => None
      | Some f =>
          let w := wallClock f t in
          Some (hourField w ++ ":" ++ minuteField w ++ ":" ++ secondField w)
      end
  end.

(** The body of the [daySlots.map] callback, the same in both fetches
    (lines 290-313 and 376-398). *)
Definition convertSlot (timeZone : string) (slotTime : string) : option TimeSlot :=
  match toLocaleTimeString timeZone (dateParse slotTime) with
  | None => None
  | Some timeInUserTz =>
      let timePart :=
        match nth_error (split timeInUserTz ", ") 1 with
        | Some p => if String.eqb p "" then timeInUserTz else p
        | None => timeInUserTz
        end in
      Some {| startTime := timePart;
              endTime := timePart;
              available := true;
              originalGHLTime := Some slotTime |}
  end.

(** *** Component state *)

(** A [Date] as the calendar reads it: local year, month index (0-11)
    and day of month.  The time of day it also carries plays no part
    in month navigation. *)
Record CalDate : Type := mkCalDate {
  fullYear : Z;
  monthIndex : Z;
  dayOfMonth : Z
}.

(** A JS object used as a map from date keys: pairs in [Object.keys]
    order, read by first match. *)
Definition SlotsMap : Type := list (string * list TimeSlot).

Fixpoint objGet {A : Type} (o : list (string * A)) (k : string) : option A :=
  match o with
  | [] => None
  | (k', v) :: r => if String.eqb k' k then Some v else objGet r k
  end.

Fixpoint objSet {A : Type} (o : list (string * A)) (k : string) (v : A)
  : list (string * A) :=
  match o with
  | [] => [(k, v)]
  | (k', v') :: r => if String.eqb k' k then (k', v) :: r else (k', v') :: objSet r k v
  end.

Definition objKeys {A : Type} (o : list (string * A)) : list string := map fst o.

Inductive Toast : Type :=
| ToastAdvertencia   (* range fetch failed *)
| ToastError.        (* date fetch or booking failed *)

(** The [useState] cells of the component, plus the toasts shown. *)
Record State : Type := mkState {
  selectedDate : string;
  selectedTime : string;
  availableSlots : list TimeSlot;
  allSlots : SlotsMap;
  loading : bool;
  initialLoading : bool;
  booking : bool;
  booked : bool;
  selectedTimezone : string;
  currentMonth : CalDate;
  toasts : list Toast
}.

Definition setSelectedDate (v : string) (s : State) : State :=
  mkState v (selectedTime s) (availableSlots s) (allSlots s) (loading s)
    (initialLoading s) (booking s) (booked s) (selectedTimezone s)
    (currentMonth s) (toasts s).

Definition setSelectedTime (v : string) (s : State) : State :=
  mkState (selectedDate s) v (availableSlots s) (allSlots s) (loading s)
    (initialLoading s) (booking s) (booked s) (selectedTimezone s)
    (currentMonth s) (toasts s).

Definition setAvailableSlots (v : list TimeSlot) (s : State) : State :=
  mkState (selectedDate s) (selectedTime s) v (allSlots s) (loading s)
    (initialLoading s) (booking s) (booked s) (selectedTimezone s)
    (currentMonth s) (toasts s).

Definition setAllSlots (v : SlotsMap) (s : State) : State :=
  mkState (selectedDate s) (selectedTime s) (availableSlots s) v (loading s)
    (initialLoading s) (booking s) (booked s) (selectedTimezone s)
    (currentMonth s) (toasts s).

Definition setLoading (v : bool) (s : State) : State :=
  mkState (selectedDate s) (selectedTime s) (availableSlots s) (allSlots s) v
    (initialLoading s) (booking s) (booked s) (selectedTimezone s)
    (currentMonth s) (toasts s).

Definition setInitialLoading (v : bool) (s : State) : State :=
  mkState (selectedDate s) (selectedTime s) (availableSlots s) (allSlots s)
    (loading s) v (booking s) (booked s) (selectedTimezone s)
    (currentMonth s) (toasts s).

Definition setBooking (v : bool) (s : State) : State :=
  mkState (selectedDate s) (selectedTime s) (availableSlots s) (allSlots s)
    (loading s) (initialLoading s) v (booked s) (selectedTimezone s)
    (currentMonth s) (toasts s).

Definition setSelectedTimezone (v : string) (s : State) : State :=
  mkState (selectedDate s) (selectedTime s) (availableSlots s) (allSlots s)
    (loading s) (initialLoading s) (booking s) (booked s) v
    (currentMonth s) (toasts s).

Definition setCurrentMonth (v : CalDate) (s : State) : State :=
  mkState (selectedDate s) (selectedTime s) (availableSlots s) (allSlots s)
    (loading s) (initialLoading s) (booking s) (booked s) (selectedTimezone s)
    v (toasts s).

Definition toast (t : Toast) (s : State) : State :=
  mkState (selectedDate s) (selectedTime s) (availableSlots s) (allSlots s)
    (loading s) (initialLoading s) (booking s) (booked s) (selectedTimezone s)
    (currentMonth s) (toasts s ++ [t]).

(** *** The slots response *)

(** What [data[dateKey]?.slots || []] finds under a key. *)
Inductive DayEntry : Type :=
| NoSlots                        (* nullish entry or falsy [slots] *)
| Slots (l : list string)        (* an array of provider timestamps *)
| NotAnArray.                    (* truthy [slots] without [map]: TypeError *)

Definition SlotsData : Type := list (string * DayEntry).

Inductive Response : Type :=
| FetchRejected                  (* network error: [fetch] rejects *)
| HttpNotOk                      (* [!response.ok] *)
| JsonRejected                   (* [response.json()] rejects *)
| JsonNull                       (* the body is [null] *)
| JsonObject (data : SlotsData).

(** [daySlots.map(...)]: a throw in one callback aborts the whole map. *)
Fixpoint convertSlots (timeZone : string) (daySlots : list string)
  : option (list TimeSlot) :=
  match daySlots with
  | [] => Some []
  | slotTime :: r =>
      match convertSlot timeZone slotTime with
      | None => None
      | Some slot => option_map (cons slot) (convertSlots timeZone r)
      end
  end.

Definition convertEntry (timeZone : string) (e : option DayEntry)
  : option (list TimeSlot) :=
  match e with
  | None | Some NoSlots => Some []
  | Some (Slots l) => convertSlots timeZone l
  | Some NotAnArray => None
  end.

(** [Object.keys(data).forEach(...)] filling [slotsMap] (lines 286-314). *)
Fixpoint fillSlotsMap (timeZone : string) (data : SlotsData)
  (keys : list string) (slotsMap : SlotsMap) : option SlotsMap :=
  match keys with
  | [] => Some slotsMap
  | dateKey :: r =>
      match convertEntry timeZone (objGet data dateKey) with
      | None => None
      | Some l => fillSlotsMap timeZone data r (objSet slotsMap dateKey l)
      end
  end.

Definition buildSlotsMap (timeZone : string) (data : SlotsData) : option SlotsMap :=
  fillSlotsMap timeZone data (objKeys data) [].

(** *** The two fetches *)

Definition ghlTimezone : string := "America/Mexico_City".

(** An async call suspended at its [await fetch(...)].  [closure] is
    the render whose function was called: [selectedTimezone] inside the
    function body is that render's constant.  The setters it calls act
    on the live state. *)
Record Pending : Type := mkPending {
  closure : State;
  tzAtStart : string;
  fetchDate : string
}.

(** [fetchAllAvailableSlots] up to its [await] (lines 235-270).  The
    range bounds sent in the query (today to 28 days on, read off the
    clock) are not modelled; building them throws when the runtime does
    not know [ghlTimezone]. *)
Definition fetchAllAvailableSlots_begin (render live : State)
  : State * option Pending :=
  let live := setInitialLoading true live in
  match zoneRules ghlTimezone with
  | None => (setInitialLoading false (toast ToastAdvertencia live), None)
  | Some _ =>
      (live, Some {| closure := render;
                     tzAtStart := selectedTimezone render;
                     fetchDate := "" |})
  end.

(** [fetchAllAvailableSlots] from the response on (lines 272-327). *)
Definition fetchAllAvailableSlots_resolve (p : Pending) (r : Response)
  (live : State) : State :=
  let failed := setInitialLoading false (toast ToastAdvertencia live) in
  match r with
  | JsonObject data =>
      if negb (String.eqb (tzAtStart p) (selectedTimezone (closure p)))
      then setInitialLoading false live
      else
        match buildSlotsMap (selectedTimezone (closure p)) data with
        | Some slotsMap => setInitialLoading false (setAllSlots slotsMap live)
        | None => failed
        end
  | JsonNull =>
      if negb (String.eqb (tzAtStart p) (selectedTimezone (closure p)))
      then setInitialLoading false live
      else failed (* [Object.keys(null)] throws *)
  | _ => failed
  end.

(** [fetchAvailableSlots(date)] up to its [await] (lines 330-358).
    Computing the bounds of the day throws when [date + 'T00:00:00'] is
    not a date ([formatToParts] rejects an invalid time value) or when
    the runtime does not know [ghlTimezone]. *)
Definition fetchAvailableSlots_begin (date : string) (render live : State)
  : State * option Pending :=
  let live := setLoading true live in
  match dateParse (date ++ "T00:00:00"), zoneRules ghlTimezone with
  | Some _, Some _ =>
      (live, Some {| closure := render;
                     tzAtStart := selectedTimezone render;
                     fetchDate := date |})
  | _, _ =>
      (setLoading false (setAvailableSlots [] (toast ToastError live)), None)
  end.

(** [fetchAvailableSlots(date)] from the response on (lines 360-412). *)
Definition fetchAvailableSlots_resolve (p : Pending) (r : Response)
  (live : State) : State :=
  let failed := setLoading false (setAvailableSlots [] (toast ToastError live)) in
  match r with
  | JsonObject data =>
      if negb (String.eqb (tzAtStart p) (selectedTimezone (closure p)))
      then setLoading false live
      else
        match convertEntry (selectedTimezone (closure p))
                (objGet data (fetchDate p)) with
        | Some slots => setLoading false (setAvailableSlots slots live)
        | None => failed
        end
  | JsonNull =>
      if negb (String.eqb (tzAtStart p) (selectedTimezone (closure p)))
      then setLoading false live
      else failed (* [data[dateKey]] on [null] throws *)
  | _ => failed
  end.

(** The effect on [selectedTimezone] (lines 208-223), run after the
    render [render] committed. *)
Definition timezoneEffect (render : State) : State * option Pending :=
  if String.eqb (selectedTimezone render) "" then (render, None)
  else
    let hasExistingSlots := (0 <? Z.of_nat (List.length (objKeys (allSlots render)))) in
    let live :=
      if hasExistingSlots
      then setSelectedTime "" (setSelectedDate ""
             (setAvailableSlots [] (setAllSlots [] render)))
      else render in
    fetchAllAvailableSlots_begin render live.

(** The timezone selector: [onValueChange={setSelectedTimezone}].  An
    unchanged value causes no render and no effect. *)
Definition selectTimezone (tz : string) (s : State) : State * option Pending :=
  if String.eqb tz (selectedTimezone s) then (s, None)
  else timezoneEffect (setSelectedTimezone tz s).

(** The effect on [selectedDate, allSlots] (lines 226-233). *)
Definition dateEffect (render : State) : State * option Pending :=
  if String.eqb (selectedDate render) "" then (render, None)
  else
    match objGet (allSlots render) (selectedDate render) with
    | Some l => (setAvailableSlots l render, None)
    | None => fetchAvailableSlots_begin (selectedDate render) render render
    end.

(** *** Month navigation (lines 445-470) *)

Inductive Direction : Type := prev | next.

(** [d.setDate(1)]. *)
Definition setDate1 (d : CalDate) : CalDate :=
  mkCalDate (fullYear d) (monthIndex d) 1.

(** [d.setMonth(m)]: the month index is normalised into the year, and
    a day of month beyond the end of that month runs over into the
    following one (days of month range over 1-31, so never further). *)
Definition setMonth (d : CalDate) (m : Z) : CalDate :=
  let y := fullYear d + m / 12 in
  let mn := m mod 12 in
  let dim := daysInMonth y (mn + 1) in
  if dayOfMonth d <=? dim then mkCalDate y mn (dayOfMonth d)
  else if mn =? 11 then mkCalDate (y + 1) 0 (dayOfMonth d - dim)
  else mkCalDate y (mn + 1) (dayOfMonth d - dim).

(** [Array.prototype.sort()] on strings: ascending by code units. *)
Fixpoint insertSorted (x : string) (l : list string) : list string :=
  match l with
  | [] => [x]
  | y :: r => if String.leb x y then x :: l else y :: insertSorted x r
  end.

Fixpoint sortStrings (l : list string) : list string :=
  match l with
  | [] => []
  | x :: r => insertSorted x (sortStrings r)
  end.

Definition monthPrefixOf (d : CalDate) : string :=
  toString (fullYear d) ++ "-" ++ padStart0 2 (toString (monthIndex d + 1)) ++ "-".

(** [(allSlots[d]?.length ?? 0) > 0]. *)
Definition hasSlotsAt (m : SlotsMap) (d : string) : bool :=
  match objGet m d with
  | Some l => (0 <? Z.of_nat (List.length l))
  | None => false
  end.

Definition candidateDates (m : SlotsMap) (monthPrefix : string) : list string :=
  sortStrings
    (filter (fun d => startsWith d monthPrefix && hasSlotsAt m d) (objKeys m)).

Definition navigateMonth (direction : Direction) (s : State) : State :=
  let newMonth := setDate1 (currentMonth s) in
  let newMonth :=
    setMonth newMonth
      (monthIndex newMonth + match direction with prev => -1 | next => 1 end) in
  let s' := setCurrentMonth newMonth s in
  match candidateDates (allSlots s) (monthPrefixOf newMonth) with
  | firstDate :: _ =>
      setAvailableSlots
        (match objGet (allSlots s) firstDate with Some l => l | None => [] end)
        (setSelectedDate firstDate s')
  | [] => setAvailableSlots [] (setSelectedDate "" s')
  end.

(** [handleDateSelect] and [handleTimeSelect] (lines 415-417, 440-443). *)
Definition handleDateSelect (date : string) (s : State) : State :=
  setSelectedTime "" (setSelectedDate date s).

Definition handleTimeSelect (time : string) (s : State) : State :=
  setSelectedTime time s.

(** *** Booking (lines 480-623) *)

Record Props : Type := mkProps {
  contactId : string;
  businessName : string;
  managerName : string
}.

(** The body posted to [/api/calendar/appointment]; the survey payload
    it forwards unchanged is left out. *)
Record BookingRequest : Type := mkBookingRequest {
  reqContactId : string;
  reqStartTime : string;
  reqEndTime : string;
  reqTitle : string;
  reqDescription : string
}.

Inductive BookingStep : Type :=
| BookingSkipped                       (* the early [return] *)
| BookingThrew (e : BookingError)      (* thrown before the POST *)
| BookingPosted (req : BookingRequest).

(** [handleBooking] up to its [await fetch(...)]. *)
Definition handleBooking_request (props : Props) (render : State) : BookingStep :=
  if String.eqb (selectedDate render) "" || String.eqb (selectedTime render) ""
  then BookingSkipped
  else if String.eqb (contactId props) "" then BookingThrew ErrNoContact
  else
    match bookingTimes (findSlot (availableSlots render) (selectedTime render)) with
    | inl e => BookingThrew e
    | inr (startT, endT) =>
        match dateParse startT, dateParse endT with
        | Some _, Some _ =>
            BookingPosted
              {| reqContactId := contactId props;
                 reqStartTime := startT;
                 reqEndTime := endT;
                 reqTitle := "Kickoff - " ++ businessName props;
                 reqDescription :=
                   "Videollamada de kickoff con " ++ managerName props
                   ++ " de " ++ businessName props |}
        | _, _ => BookingThrew ErrInvalidDate
        end
    end.

(** The state [handleBooking] leaves while the POST is in flight, or
    after its [catch] and [finally] when it threw. *)
Definition handleBooking (props : Props) (render live : State)
  : State * BookingStep :=
  match handleBooking_request props render with
  | BookingSkipped => (live, BookingSkipped)
  | BookingThrew e =>
      (setBooking false (toast ToastError (setBooking true live)), BookingThrew e)
  | BookingPosted req => (setBooking true live, BookingPosted req)
  end.

(** The number of booking calls a step issues. *)
Definition bookingCalls (b : BookingStep) : nat :=
  match b with
  | BookingPosted _ => 1
  | _ => 0
  end.

End Runtime.

(** ** Timezone selection at mount (lines 24-34, 119-160) *)

Definition TIMEZONES : list (string * string) :=
  [("America/Mexico_City", "America/Mexico_City");
   ("America/Chihuahua", "America/Chihuahua");
   ("America/Tijuana", "America/Tijuana");
   ("America/New_York", "America/New_York");
   ("America/Los_Angeles", "America/Los_Angeles");
   ("America/Chicago", "America/Chicago");
   ("Europe/Madrid", "Europe/Madrid");
   ("Europe/London", "Europe/London")].

Definition supportedZones : list string := map fst TIMEZONES.

(** The outcome of [Intl.DateTimeFormat().resolvedOptions().timeZone]. *)
Inductive Detected : Type :=
| DetectThrows
| DetectUndefined
| DetectTz (browserTz : string).

Definition TZ_ALIASES : list (string * string) :=
  [("America/Santa_Isabel", "America/Tijuana")].

(** Property names an object literal inherits from [Object.prototype]:
    reading one of them from [TZ_ALIASES] yields a truthy non-string. *)
Definition objectPrototypeKeys : list string :=
  ["constructor"; "toString"; "toLocaleString"; "valueOf"; "hasOwnProperty";
   "isPrototypeOf"; "propertyIsEnumerable"; "__proto__"; "__defineGetter__";
   "__defineSetter__"; "__lookupGetter__"; "__lookupSetter__"].

Definition defaultZone : string := "America/Mexico_City".

(** The value the mount effect passes to [setSelectedTimezone].  Reading
    [includes] off [undefined] or off an inherited property throws a
    TypeError, which the [catch] turns into the default. *)
Definition detectTimezone (d : Detected) : string :=
  match d with
  | DetectThrows => defaultZone
  | DetectUndefined => defaultZone
  | DetectTz browserTz =>
      if existsb (String.eqb browserTz) objectPrototypeKeys then defaultZone
      else
        let normalizedTz :=
          match objGet TZ_ALIASES browserTz with
          | Some a => if String.eqb a "" then browserTz else a
          | None => browserTz
          end in
        let supported := existsb (fun tz => String.eqb (fst tz) normalizedTz) TIMEZONES in
        if supported then normalizedTz
        else if includes normalizedTz "Tijuana" then "America/Tijuana"
        else if includes normalizedTz "Los_Angeles" || includes normalizedTz "Vancouver"
                || includes normalizedTz "Phoenix" then "America/Los_Angeles"
        else if includes normalizedTz "Mexico" || includes normalizedTz "Mexico_City"
                || includes normalizedTz "Guatemala" || includes normalizedTz "Belize"
                || includes normalizedTz "Chicago" then "America/Mexico_City"
        else "America/Mexico_City"
  end.

Definition mountEffect (d : Detected) (s : State) : State :=
  setSelectedTimezone (detectTimezone d) s.

(** [getSafeTimeZone] (lines 119-125). *)
Definition getSafeTimeZone (s : State) (d : Detected) : string :=
  if negb (String.eqb (selectedTimezone s) "") then selectedTimezone s
  else
    match d with
    | DetectTz tz => if String.eqb tz "" then "UTC" else tz
    | DetectUndefined => "UTC"
    | DetectThrows => "UTC"
    end.

(** A runtime that knows the supported zones, and a few more, at fixed
    offsets; used in the examples. *)
Definition sampleOffsets : list (string * Z) :=
  [("America/Mexico_City", -360); ("America/Chihuahua", -360);
   ("America/Tijuana", -480); ("America/New_York", -300);
   ("America/Los_Angeles", -480); ("America/Chicago", -360);
   ("Europe/Madrid", 60); ("Europe/London", 0);
   ("Pacific/Auckland", 720); ("UTC", 0)].

Definition sampleZones (tz : string) : option (Z -> Z) :=
  option_map (fun o _ => o) (objGet sampleOffsets tz).

Definition noLegacyParse : string -> option Z := fun _ => None.

(** A legacy parser that reads the local midnight of the example date
    (in a process running six hours behind UTC) and nothing else. *)
Definition sampleLegacyParse (s : string) : option Z :=
  if String.eqb s "2025-11-03T00:00:00" then Some 1762149600000 else None.

Definition initialState : State :=
  {| selectedDate := ""; selectedTime := ""; availableSlots := [];
     allSlots := []; loading := false; initialLoading := true;
     booking := false; booked := false; selectedTimezone := "";
     currentMonth := mkCalDate 2025 10 3; toasts := [] |}.

Definition stateWithSlot (ts : option string) : State :=
  setSelectedTime "17:00:00"
    (setSelectedDate "2025-11-03"
       (setAvailableSlots [mkTimeSlot "17:00:00" "17:00:00" true ts] initialState)).

Definition sampleProps : Props := mkProps "contact-1" "Clinica" "Ana".


(** What holds of a slot built from the provider timestamp [slotTime]. *)
Definition builtFrom (slotTime : string) (slot : TimeSlot) : Prop :=
  available slot = true /\
  endTime slot = startTime slot /\
  originalGHLTime slot = Some slotTime.

(** The provider timestamps listed under an entry of the response. *)
Definition entrySlots (e : option DayEntry) : list string :=
  match e with
  | Some (Slots l) => l
  | _ => []
  end.

(** The response of the examples: one date with one slot. *)
Definition sampleData : SlotsData :=
  [("2025-11-03", Slots ["2025-11-03T16:00:00-06:00"])].

(** A response that brings no data: the request failed, the status was
    not ok, or the body could not be read. *)
Definition isNetworkFailure (r : Response) : bool :=
  match r with
  | FetchRejected | HttpNotOk | JsonRejected => true
  | _ => false
  end.

(** The session of the examples, mounted in the provider's zone with the
    range fetch of that zone in flight. *)
Definition mountedMexico : State :=
  mountEffect (DetectTz "America/Mexico_City") initialState.

Definition slotAt (display : string) : TimeSlot :=
  mkTimeSlot display display true (Some "2025-11-03T16:00:00-06:00").

(** A cached date of the month with prefix [monthPrefix] that has slots. *)
Definition isCandidate (m : SlotsMap) (monthPrefix d : string) : Prop :=
  In d (objKeys m) /\ startsWith d monthPrefix = true /\ hasSlotsAt m d = true.

(** The cache of the navigation example: two November dates with a slot,
    one without, one December date. *)
Definition novemberCache : SlotsMap :=
  [("2025-11-20", [slotAt "09:00:00"]); ("2025-11-07", []);
   ("2025-12-01", [slotAt "10:00:00"]); ("2025-11-12", [slotAt "11:00:00"])].

Definition october31 : State :=
  setAllSlots novemberCache (setCurrentMonth (mkCalDate 2025 9 31) initialState).

(** Strings of exactly two decimal digits, and the ten digits. *)
Definition twoDigits (s : string) : bool :=
  match s with
  | String a (String b EmptyString) => isDigit a && isDigit b
  | _ => false
  end.

Definition digitChars : list ascii :=
  ["0"; "1"; "2"; "3"; "4"; "5"; "6"; "7"; "8"; "9"]%char.

(** ** The timezone label (lines 83-91) *)

Definition jsAbs (a : jsnum) : jsnum :=
  match a with
  | Num z => Num (Z.abs z)
  | NaN => NaN
  end.

(** [a >= b]: false as soon as one side is NaN. *)
Definition jsGe (a b : jsnum) : bool :=
  match a, b with
  | Num x, Num y => y <=? x
  | _, _ => false
  end.

(** [getTimezoneLabel(timezone)], with the current instant [now] that
    [getTimezoneOffset] takes by default; [None] when the resolver
    throws. *)
Definition getTimezoneLabel (zoneRules : string -> option (Z -> Z)) (hour24 : bool)
  (timezone : string) (now : Z) : option string :=
  match getTimezoneOffset zoneRules hour24 timezone now with
  | None => None
  | Some offsetMinutes =>
      let offsetHours := jsFloorDiv (jsAbs offsetMinutes) (Num 60) in
      let offsetMins := jsRem (jsAbs offsetMinutes) (Num 60) in
      let sign := if jsGe offsetMinutes (Num 0) then "+" else "-" in
      let offsetStr :=
        "GMT" ++ sign ++ padStart0 2 (jsToString offsetHours) ++ ":"
        ++ padStart0 2 (jsToString offsetMins) in
      Some (offsetStr ++ " " ++ timezone)
  end.

(** ** The calendar grid (lines 162-205, 714-723) *)

(** [d.getDay()]: 0 is Sunday; 1970-01-01 was a Thursday. *)
Definition weekday (d : CalDate) : Z :=
  (daysFromCivil (fullYear d) (monthIndex d + 1) (dayOfMonth d) + 4) mod 7.

(** One day on and one day back, as [setDate] carries a day of month
    past either end of the month into the neighbouring month. *)
Definition nextDay (d : CalDate) : CalDate :=
  if dayOfMonth d <? daysInMonth (fullYear d) (monthIndex d + 1)
  then mkCalDate (fullYear d) (monthIndex d) (dayOfMonth d + 1)
  else if monthIndex d =? 11 then mkCalDate (fullYear d + 1) 0 1
  else mkCalDate (fullYear d) (monthIndex d + 1) 1.

Definition prevDay (d : CalDate) : CalDate :=
  if 1 <? dayOfMonth d
  then mkCalDate (fullYear d) (monthIndex d) (dayOfMonth d - 1)
  else if monthIndex d =? 0 then mkCalDate (fullYear d - 1) 11 31
  else mkCalDate (fullYear d) (monthIndex d - 1)
         (daysInMonth (fullYear d) (monthIndex d)).

(** [d.setDate(d.getDate() + n)] and [d.setDate(d.getDate() - n)]. *)
Fixpoint addDays (d : CalDate) (n : nat) : CalDate :=
  match n with
  | O => d
  | S k => addDays (nextDay d) k
  end.

Fixpoint subDays (d : CalDate) (n : nat) : CalDate :=
  match n with
  | O => d
  | S k => subDays (prevDay d) k
  end.

(** The key of a grid cell: year, 2-digit month, 2-digit day. *)
Definition dateString (d : CalDate) : string :=
  toString (fullYear d) ++ "-" ++ padStart0 2 (toString (monthIndex d + 1))
  ++ "-" ++ padStart0 2 (toString (dayOfMonth d)).

Record CalendarDay : Type := mkCalendarDay {
  cellDate : string;
  cellDay : Z;
  isCurrentMonth : bool;
  isToday : bool;
  isPast : bool;
  isSelected : bool;
  hasSlots : bool
}.

Definition sameDate (a b : CalDate) : bool :=
  (fullYear a =? fullYear b) && (monthIndex a =? monthIndex b)
  && (dayOfMonth a =? dayOfMonth b).

(** The year [new Date(year, month, day)] takes for its first argument:
    0 to 99 stand for 1900 to 1999. *)
Definition constructorYear (y : Z) : Z :=
  if (0 <=? y) && (y <=? 99) then 1900 + y else y.

(** The first cell of the grid: the first of the month moved back by its
    own weekday. *)
Definition gridStart (month : CalDate) : CalDate :=
  let firstDay := mkCalDate (constructorYear (fullYear month)) (monthIndex month) 1 in
  subDays firstDay (Z.to_nat (weekday firstDay)).

(** [generateCalendarDays].  [today] is the local date of the current
    instant and [beforeNow d] tells whether the local midnight of [d]
    lies before that instant (the comparison [date < today]). *)
Definition generateCalendarDays (s : State) (today : CalDate)
  (beforeNow : CalDate -> bool) : list CalendarDay :=
  let startDate := gridStart (currentMonth s) in
  map (fun i =>
         let date := addDays startDate i in
         let ds := dateString date in
         {| cellDate := ds;
            cellDay := dayOfMonth date;
            isCurrentMonth := monthIndex date =? monthIndex (currentMonth s);
            isToday := sameDate date today;
            isPast := beforeNow date;
            isSelected := String.eqb (selectedDate s) ds;
            hasSlots := hasSlotsAt (allSlots s) ds |})
      (seq 0 42).



(** A date of the calendar. *)
Definition validDate (d : CalDate) : Prop :=
  0 <= monthIndex d <= 11 /\
  1 <= dayOfMonth d <= daysInMonth (fullYear d) (monthIndex d + 1).

(** ** The appointment route and the provider call
       (server/routes.ts 179-279, GHLService.createAppointment) *)

(** The fields the route reads from the request body; [None] is a field
    that is not there. *)
Record AppointmentBody : Type := mkAppointmentBody {
  bodyContactId : option string;
  bodyStartTime : option string;
  bodyEndTime : option string;
  bodyTitle : option string;
  bodyDescription : option string;
  bodyHasSurvey : bool
}.

(** The environment of the server process. *)
Record ServerEnv : Type := mkServerEnv {
  GHL_API_TOKEN : option string;
  GHL_CALENDAR_ID : option string;
  GHL_USER_ID : option string;
  GHL_LOCATION_ID : option string
}.

(** [x || d] on a string that may be missing. *)
Definition orElse (x : option string) (d : string) : string :=
  match x with
  | Some v => if String.eqb v "" then d else v
  | None => d
  end.

(** [!x]. *)
Definition falsy (x : option string) : bool :=
  match x with
  | Some v => String.eqb v ""
  | None => true
  end.

(** The payload [createAppointment] posts to the provider. *)
Record GhlPayload : Type := mkGhlPayload {
  payTitle : string;
  payMeetingLocationType : string;
  payMeetingLocationId : string;
  payOverrideLocationConfig : bool;
  payAppointmentStatus : string;
  payAssignedUserId : string;
  payDescription : string;
  payIgnoreDateRange : bool;
  payToNotify : bool;
  payIgnoreFreeSlotValidation : bool;
  payCalendarId : string;
  payLocationId : string;
  payContactId : string;
  payStartTime : string;
  payEndTime : string
}.

(** [createAppointment] up to its [axios.post]: [None] when it throws
    for want of a token. *)
Definition createAppointment_payload (env : ServerEnv)
  (calendarId contactId startT endT title : string) (description : option string)
  : option GhlPayload :=
  if String.eqb (orElse (GHL_API_TOKEN env) "") "" then None
  else
    Some {| payTitle := title;
            payMeetingLocationType := "gmeet";
            payMeetingLocationId := "default";
            payOverrideLocationConfig := true;
            payAppointmentStatus := "confirmed";
            payAssignedUserId := orElse (GHL_USER_ID env) "";
            payDescription := orElse description "";
            payIgnoreDateRange := false;
            payToNotify := false;
            payIgnoreFreeSlotValidation := true;
            payCalendarId := calendarId;
            payLocationId := orElse (GHL_LOCATION_ID env) calendarId;
            payContactId := contactId;
            payStartTime := startT;
            payEndTime := endT |}.

Inductive RouteStep : Type :=
| Reply400                        (* a required field is missing *)
| Reply500                        (* [createAppointment] threw *)
| CallProvider (p : GhlPayload).   (* the appointment is posted *)

(** The appointment route up to the provider call. *)
Definition appointmentRoute_request (env : ServerEnv) (body : AppointmentBody)
  : RouteStep :=
  if falsy (bodyContactId body) || falsy (bodyStartTime body)
     || falsy (bodyEndTime body) || falsy (bodyTitle body)
  then Reply400
  else
    match createAppointment_payload env
            (orElse (GHL_CALENDAR_ID env) "")
            (orElse (bodyContactId body) "") (orElse (bodyStartTime body) "")
            (orElse (bodyEndTime body) "") (orElse (bodyTitle body) "")
            (bodyDescription body) with
    | None => Reply500
    | Some p => CallProvider p
    end.

(** The body [JSON.stringify(requestData)] carries to the route. *)
Definition bodyOfRequest (req : BookingRequest) (hasSurvey : bool) : AppointmentBody :=
  {| bodyContactId := Some (reqContactId req);
     bodyStartTime := Some (reqStartTime req);
     bodyEndTime := Some (reqEndTime req);
     bodyTitle := Some (reqTitle req);
     bodyDescription := Some (reqDescription req);
     bodyHasSurvey := hasSurvey |}.

(** [scheduledDate] and [scheduledTime] of the webhook payload:
    [startTime.split('T')[0]] and [startTime.split('T')[1].split('-')[0]];
    [None] when the second piece is missing and reading it throws. *)
Definition webhookSchedule (startT : string) : option (string * string) :=
  let parts := split startT "T" in
  match nth_error parts 1 with
  | None => None
  | Some rest => Some (nth 0 parts "", nth 0 (split rest "-") "")
  end.

(** A character that does not occur in a string. *)
Fixpoint lacksChar (c : ascii) (s : string) : bool :=
  match s with
  | EmptyString => true
  | String x r => negb (Ascii.eqb x c) && lacksChar c r
  end.

(** The clock reading "HH:MM:SS" of hour [h], minute [mi], second [se]. *)
Definition clock (h mi se : Z) : string :=
  padStart0 2 (toString h) ++ ":" ++ padStart0 2 (toString mi) ++ ":"
  ++ padStart0 2 (toString se).

(** The offset of a matched timestamp, in minutes east of UTC. *)
Definition offsetMinutesOf (m : GhlMatch) : Z :=
  (if String.prefix "-" (ghlOffsetStr m) then -1 else 1)
  * (digitsValue (String.substring 1 2 (ghlOffsetStr m)) * 60
     + digitsValue (String.substring 4 2 (ghlOffsetStr m))).

(** The day number of a date of the calendar. *)
Definition dayNumber (d : CalDate) : Z :=
  daysFromCivil (fullYear d) (monthIndex d + 1) (dayOfMonth d).

(** Strings of exactly four decimal digits. *)
Definition fourDigits (s : string) : bool :=
  match s with
  | String a (String b (String c (String e EmptyString))) =>
      isDigit a && isDigit b && isDigit c && isDigit e
  | _ => false
  end.

(** * Properties *)

(** ** Bounded checks *)

Lemma range_check (P : Z -> bool) (n : nat) :
  forallb P (map Z.of_nat (seq 0 n)) = true ->
  forall z, 0 <= z < Z.of_nat n -> P z = true.
Proof.
  intros H z Hz.
  rewrite forallb_forall in H.
  apply H.
  replace z with (Z.of_nat (Z.to_nat z)) by lia.
  apply in_map, in_seq. lia.
Qed.

Lemma pad2_twoDigits (n : Z) :
  0 <= n < 100 -> twoDigits (padStart0 2 (toString n)) = true.
Proof.
  apply (range_check (fun n => twoDigits (padStart0 2 (toString n))) 100).
  vm_compute. reflexivity.
Qed.

Lemma pad2_parse (n : Z) :
  0 <= n < 100 -> parseInt10 (padStart0 2 (toString n)) = Num n.
Proof.
  intros H.
  assert (E : (match parseInt10 (padStart0 2 (toString n)) with
               | Num k => k =? n | NaN => false end) = true).
  { revert n H.
    apply (range_check (fun n => match parseInt10 (padStart0 2 (toString n)) with
                                 | Num k => k =? n | NaN => false end) 100).
    vm_compute. reflexivity. }
  destruct (parseInt10 _); [discriminate|].
  apply Z.eqb_eq in E. now subst.
Qed.

Lemma isDigit_cases (c : ascii) : isDigit c = true -> In c digitChars.
Proof.
  destruct c as [[] [] [] [] [] [] [] []]; vm_compute; intros H;
    try discriminate; tauto.
Qed.

Lemma parseInt_two_digits (a b : ascii) :
  isDigit a = true -> isDigit b = true ->
  parseInt10 (String a (String b "")) = Num (10 * digitValue a + digitValue b)
  /\ 0 <= 10 * digitValue a + digitValue b < 100.
Proof.
  intros Ha Hb.
  apply isDigit_cases in Ha. apply isDigit_cases in Hb.
  unfold digitChars in *. simpl in Ha, Hb.
  repeat (destruct Ha as [<-|Ha]; [|]); try contradiction;
  repeat (destruct Hb as [<-|Hb]; [|]); try contradiction;
  (split; [reflexivity | unfold digitValue; simpl; lia]).
Qed.

(** ** The timestamp pattern and the end timestamp *)

Ltac peel E s :=
  let c := fresh "c" in
  let Hc := fresh "Hc" in
  destruct s as [|c s]; [discriminate E|];
  cbn [matchClasses] in E; apply andb_true_iff in E; destruct E as [Hc E].

Lemma twoDigits_shape (s : string) :
  twoDigits s = true ->
  exists a b, s = String a (String b "") /\ isDigit a = true /\ isDigit b = true.
Proof.
  destruct s as [|a [|b [|? ?]]]; simpl; try discriminate.
  intros H. apply andb_true_iff in H. exists a, b. tauto.
Qed.

Lemma isChar_eq (c x : ascii) : isChar c x = true -> x = c.
Proof. unfold isChar. apply Ascii.eqb_eq. Qed.

Lemma isChar_refl (c : ascii) : isChar c c = true.
Proof. unfold isChar. apply Ascii.eqb_refl. Qed.

(** The end timestamp of a matching start timestamp matches again, with
    the date, seconds and offset groups of the start, and its clock is
    the start clock plus 45 minutes on a 24-hour dial. *)
Lemma bookingEndTime_groups (s : string) (m : GhlMatch) :
  ghlMatch s = Some m ->
  exists (m' : GhlMatch) (h mi : Z),
    parseInt10 (ghlHour m) = Num h /\ parseInt10 (ghlMin m) = Num mi /\
    0 <= h < 100 /\ 0 <= mi < 100 /\
    ghlMatch (bookingEndTime m) = Some m' /\
    ghlDate m' = ghlDate m /\ ghlSec m' = ghlSec m /\
    ghlOffsetStr m' = ghlOffsetStr m /\
    parseInt10 (ghlHour m') = Num (((h * 60 + mi + 45) / 60) mod 24) /\
    parseInt10 (ghlMin m') = Num ((h * 60 + mi + 45) mod 60) /\
    takeLast 6 s = ghlOffsetStr m /\
    takeLast 6 (bookingEndTime m) = ghlOffsetStr m.
Proof.
  unfold ghlMatch at 1.
  destruct (matchClasses ghlPattern s) eqn:E; [|discriminate].
  intros [= <-]. unfold ghlPattern in E.
  do 25 (peel E s).
  destruct s; [clear E|discriminate E].
  repeat match goal with
         | H : isChar _ _ = true |- _ => apply isChar_eq in H; subst
         end.
  cbn [String.substring].
  destruct (parseInt_two_digits c10 c11) as [Eh Rh]; trivial.
  destruct (parseInt_two_digits c13 c14) as [Em Rm]; trivial.
  set (h := 10 * digitValue c10 + digitValue c11) in *.
  set (mi := 10 * digitValue c13 + digitValue c14) in *.
  unfold bookingEndTime.
  cbn [ghlDate ghlHour ghlMin ghlSec ghlOffsetStr].
  rewrite Eh, Em.
  cbn [jsAdd jsMul jsFloorDiv jsRem jsLift2 jsToString].
  assert (Hq : 0 <= (h * 60 + mi + 45) / 60) by (apply Z.div_pos; lia).
  rewrite (Z.rem_mod_nonneg ((h * 60 + mi + 45) / 60) 24) by lia.
  rewrite (Z.rem_mod_nonneg (h * 60 + mi + 45) 60) by lia.
  set (eh := ((h * 60 + mi + 45) / 60) mod 24).
  set (em := (h * 60 + mi + 45) mod 60).
  assert (Reh : 0 <= eh < 100)
    by (pose proof (Z.mod_pos_bound ((h * 60 + mi + 45) / 60) 24); lia).
  assert (Rem : 0 <= em < 100)
    by (pose proof (Z.mod_pos_bound (h * 60 + mi + 45) 60); lia).
  pose proof (pad2_parse eh Reh) as Peh.
  pose proof (pad2_parse em Rem) as Pem.
  destruct (twoDigits_shape _ (pad2_twoDigits eh Reh)) as (a1 & b1 & E1 & Ha1 & Hb1).
  destruct (twoDigits_shape _ (pad2_twoDigits em Rem)) as (a2 & b2 & E2 & Ha2 & Hb2).
  rewrite E1 in *. rewrite E2 in *.
  eexists _, h, mi.
  split; [reflexivity|]. split; [reflexivity|].
  split; [exact Rh|]. split; [exact Rm|].
  unfold ghlMatch, ghlPattern.
  cbn [append matchClasses].
  rewrite ?isChar_refl.
  repeat match goal with
         | H : isDigit _ = true |- _ => rewrite H; clear H
         end.
  rewrite Hc18.
  cbn [andb String.substring ghlDate ghlHour ghlMin ghlSec ghlOffsetStr].
  split; [reflexivity|].
  cbn [ghlDate ghlHour ghlMin ghlSec ghlOffsetStr].
  repeat split; assumption || reflexivity.
Qed.

(** A matching string is its five groups put back around the fixed
    separators. *)
Lemma ghlMatch_recompose (s : string) (m : GhlMatch) :
  ghlMatch s = Some m ->
  s = ghlDate m ++ "T" ++ ghlHour m ++ ":" ++ ghlMin m ++ ":" ++ ghlSec m
      ++ ghlOffsetStr m.
Proof.
  unfold ghlMatch.
  destruct (matchClasses ghlPattern s) eqn:E; [|discriminate].
  intros [= <-]. unfold ghlPattern in E.
  do 25 (peel E s).
  destruct s; [clear E|discriminate E].
  repeat match goal with
         | H : isChar _ _ = true |- _ => apply isChar_eq in H; subst
         end.
  reflexivity.
Qed.

Lemma ghlMatch_nonempty (s : string) (m : GhlMatch) :
  ghlMatch s = Some m -> String.eqb s "" = false.
Proof. destruct s; [discriminate | reflexivity]. Qed.

(** ** Booking request *)

(** C2.  For a selected slot whose provider timestamp matches the
    pattern, the request's end timestamp is assembled from the date,
    the seconds and the offset groups of the start timestamp around the
    recomputed hour and minute: it matches the pattern again with those
    same three groups, and its last six characters (the offset) are the
    last six characters of the start timestamp.  No timezone enters the
    computation. *)
Theorem booking_end_reuses_start_offset (slot : TimeSlot) (ts : string) (m : GhlMatch) :
  originalGHLTime slot = Some ts ->
  ghlMatch ts = Some m ->
  exists (en : string) (m' : GhlMatch),
    bookingTimes (Some slot) = inr (ts, en) /\
    ghlMatch en = Some m' /\
    en = ghlDate m ++ "T" ++ ghlHour m' ++ ":" ++ ghlMin m' ++ ":" ++ ghlSec m
         ++ ghlOffsetStr m /\
    ghlOffsetStr m' = ghlOffsetStr m /\
    ghlSec m' = ghlSec m /\
    ghlDate m' = ghlDate m /\
    takeLast 6 en = takeLast 6 ts.
Proof.
  intros Hts Hm.
  destruct (bookingEndTime_groups ts m Hm)
    as (m' & h & mi & _ & _ & _ & _ & Hen & Hd & Hs & Ho & _ & _ & Lts & Len).
  exists (bookingEndTime m), m'.
  split.
  { unfold bookingTimes. rewrite Hts, (ghlMatch_nonempty ts m Hm), Hm. reflexivity. }
  split; [exact Hen|].
  split.
  { rewrite (ghlMatch_recompose _ _ Hen) at 1. now rewrite Hd, Hs, Ho. }
  repeat split; try assumption.
  now rewrite Lts, Len.
Qed.

Lemma booking_end_reuses_start_offset_witness :
  exists (en : string) (m' : GhlMatch),
    bookingTimes (Some (mkTimeSlot "17:00:00" "17:00:00" true
                          (Some "2025-11-03T16:00:00-06:00")))
    = inr ("2025-11-03T16:00:00-06:00", en) /\
    ghlMatch en = Some m' /\
    en = "2025-11-03" ++ "T" ++ ghlHour m' ++ ":" ++ ghlMin m' ++ ":" ++ "00"
         ++ "-06:00" /\
    ghlOffsetStr m' = "-06:00" /\
    ghlSec m' = "00" /\
    ghlDate m' = "2025-11-03" /\
    takeLast 6 en = takeLast 6 "2025-11-03T16:00:00-06:00".
Proof.
  apply (booking_end_reuses_start_offset
           (mkTimeSlot "17:00:00" "17:00:00" true (Some "2025-11-03T16:00:00-06:00"))
           "2025-11-03T16:00:00-06:00"
           (mkGhlMatch "2025-11-03" "16" "00" "00" "-06:00")).
  - reflexivity.
  - vm_compute. reflexivity.
Defined.

(** The request [handleBooking] posts carries the slot's provider
    timestamp as its start and an end with the same offset group. *)
Lemma handleBooking_request_offset (legacyDateParse : string -> option Z)
  (props : Props) (render : State) (req : BookingRequest) :
  handleBooking_request legacyDateParse props render = BookingPosted req ->
  exists (slot : TimeSlot) (m m' : GhlMatch),
    findSlot (availableSlots render) (selectedTime render) = Some slot /\
    originalGHLTime slot = Some (reqStartTime req) /\
    ghlMatch (reqStartTime req) = Some m /\
    ghlMatch (reqEndTime req) = Some m' /\
    ghlOffsetStr m' = ghlOffsetStr m.
Proof.
  unfold handleBooking_request.
  destruct (_ || _); [discriminate|].
  destruct (String.eqb (contactId props) ""); [discriminate|].
  destruct (findSlot _ _) as [slot|] eqn:Ef; [|discriminate].
  unfold bookingTimes.
  destruct (originalGHLTime slot) as [ts|] eqn:Ets; [|discriminate].
  destruct (String.eqb ts ""); [discriminate|].
  destruct (ghlMatch ts) as [m|] eqn:Em; [|discriminate].
  destruct (dateParse _ ts); [|discriminate].
  destruct (dateParse _ (bookingEndTime m)); [|discriminate].
  intros [= <-]. simpl.
  destruct (bookingEndTime_groups ts m Em)
    as (m' & h & mi & _ & _ & _ & _ & Hen & _ & _ & Ho & _).
  exists slot, m, m'. auto.
Qed.

(** C4.  The display-side end time does not wrap the hour: a slot shown
    at 23:30 gets the end "24:15", rendered as 12:15 p. m., while the
    booking side wraps the same clock to 00:15 and keeps the date. *)
Theorem getEndTime_hour_not_wrapped :
  getEndTime "23:30:00" = "24:15" /\
  formatTimeForDisplay (getEndTime "23:30:00") = "12:15 p. m." /\
  bookingTimes (Some (mkTimeSlot "23:30:00" "23:30:00" true
                        (Some "2025-11-03T23:30:00-06:00")))
  = inr ("2025-11-03T23:30:00-06:00", "2025-11-03T00:15:00-06:00").
Proof. vm_compute. repeat split. Qed.

(** On every clock reading "HH:MM:SS" the display-side end time is the
    start plus 45 minutes with the minutes carried into the hour, and
    the hour left as it comes out (24 from 23:15 on). *)
Lemma getEndTime_clock (h mi : Z) :
  0 <= h < 24 -> 0 <= mi < 60 ->
  getEndTime (padStart0 2 (toString h) ++ ":" ++ padStart0 2 (toString mi) ++ ":00")
  = padStart0 2 (toString ((h * 60 + mi + 45) / 60)) ++ ":"
    ++ padStart0 2 (toString ((h * 60 + mi + 45) mod 60)).
Proof.
  intros Hh Hm.
  pose (P := fun h => forallb (fun mi =>
    String.eqb
      (getEndTime (padStart0 2 (toString h) ++ ":" ++ padStart0 2 (toString mi) ++ ":00"))
      (padStart0 2 (toString ((h * 60 + mi + 45) / 60)) ++ ":"
       ++ padStart0 2 (toString ((h * 60 + mi + 45) mod 60))))
    (map Z.of_nat (seq 0 60))).
  assert (HP : P h = true).
  { apply (range_check P 24); [vm_compute; reflexivity | lia]. }
  unfold P in HP.
  apply String.eqb_eq.
  apply (range_check _ 60 HP). lia.
Qed.

(** C5.  With a slot found for the selected time: when it lacks its
    provider timestamp (absent or empty) the request builder fails with
    the slot-not-found error, when the timestamp is present but does not
    match the pattern it fails with the format error, and in both cases
    [handleBooking] issues no booking call; once the date, time and
    contact guards have passed, these are the errors it throws. *)
Theorem booking_fails_without_valid_timestamp
  (legacyDateParse : string -> option Z) (props : Props) (render : State)
  (slot : TimeSlot) :
  findSlot (availableSlots render) (selectedTime render) = Some slot ->
  let guardsPass :=
    selectedDate render <> "" /\ selectedTime render <> "" /\ contactId props <> "" in
  (lacksTimestamp slot = true ->
     bookingTimes (Some slot) = inl ErrSlotNotFound /\
     bookingCalls (handleBooking_request legacyDateParse props render) = 0%nat /\
     (guardsPass ->
      handleBooking_request legacyDateParse props render = BookingThrew ErrSlotNotFound))
  /\
  (forall ts, originalGHLTime slot = Some ts -> ts <> "" -> ghlMatch ts = None ->
     bookingTimes (Some slot) = inl ErrGHLFormat /\
     bookingCalls (handleBooking_request legacyDateParse props render) = 0%nat /\
     (guardsPass ->
      handleBooking_request legacyDateParse props render = BookingThrew ErrGHLFormat)).
Proof.
  intros Hf guardsPass.
  assert (G : forall e, bookingTimes (Some slot) = inl e ->
     bookingCalls (handleBooking_request legacyDateParse props render) = 0%nat /\
     (guardsPass ->
      handleBooking_request legacyDateParse props render = BookingThrew e)).
  { intros e He. unfold handleBooking_request. rewrite Hf, He. split.
    - destruct (_ || _); [reflexivity|].
      destruct (String.eqb (contactId props) ""); reflexivity.
    - intros (Hd & Ht & Hc).
      apply String.eqb_neq in Hd, Ht, Hc. rewrite Hd, Ht, Hc. reflexivity. }
  split.
  - intros Hl.
    assert (E : bookingTimes (Some slot) = inl ErrSlotNotFound).
    { unfold bookingTimes. unfold lacksTimestamp in Hl.
      destruct (originalGHLTime slot); [rewrite Hl|]; reflexivity. }
    split; [exact E | exact (G _ E)].
  - intros ts Hts Hne Hm.
    assert (E : bookingTimes (Some slot) = inl ErrGHLFormat).
    { unfold bookingTimes. rewrite Hts, Hm.
      apply String.eqb_neq in Hne. rewrite Hne. reflexivity. }
    split; [exact E | exact (G _ E)].
Qed.

Lemma booking_fails_without_valid_timestamp_witness :
  (bookingTimes (Some (mkTimeSlot "17:00:00" "17:00:00" true None))
   = inl ErrSlotNotFound /\
   bookingCalls (handleBooking_request noLegacyParse sampleProps (stateWithSlot None))
   = 0%nat /\
   handleBooking_request noLegacyParse sampleProps (stateWithSlot None)
   = BookingThrew ErrSlotNotFound)
  /\
  (bookingTimes (Some (mkTimeSlot "17:00:00" "17:00:00" true
                         (Some "2025-11-03 16:00:00")))
   = inl ErrGHLFormat /\
   bookingCalls (handleBooking_request noLegacyParse sampleProps
                   (stateWithSlot (Some "2025-11-03 16:00:00")))
   = 0%nat /\
   handleBooking_request noLegacyParse sampleProps
     (stateWithSlot (Some "2025-11-03 16:00:00"))
   = BookingThrew ErrGHLFormat).
Proof.
  assert (G : "2025-11-03" <> "" /\ "17:00:00" <> "" /\ "contact-1" <> "")
    by (repeat split; discriminate).
  split.
  - pose proof (proj1 (booking_fails_without_valid_timestamp noLegacyParse sampleProps
                  (stateWithSlot None)
                  (mkTimeSlot "17:00:00" "17:00:00" true None) eq_refl) eq_refl)
      as [H1 [H2 H3]].
    split; [exact H1 | split; [exact H2 | exact (H3 G)]].
  - assert (N : "2025-11-03 16:00:00" <> "") by discriminate.
    pose proof (proj2 (booking_fails_without_valid_timestamp noLegacyParse sampleProps
                  (stateWithSlot (Some "2025-11-03 16:00:00"))
                  (mkTimeSlot "17:00:00" "17:00:00" true (Some "2025-11-03 16:00:00"))
                  eq_refl) "2025-11-03 16:00:00" eq_refl N eq_refl)
      as [H1 [H2 H3]].
    split; [exact H1 | split; [exact H2 | exact (H3 G)]].
Defined.

(** ** Timezone offset resolver *)

Lemma pad2_nonempty (n : Z) :
  0 <= n < 100 -> String.eqb (padStart0 2 (toString n)) "" = false.
Proof.
  intros H.
  destruct (twoDigits_shape _ (pad2_twoDigits n H)) as (a & b & -> & _).
  reflexivity.
Qed.

Lemma minutes_of_day (x : Z) : ((x / 60) mod 24) * 60 + x mod 60 = x mod 1440.
Proof.
  change 1440 with (60 * 24).
  rewrite Z.rem_mul_r by lia. lia.
Qed.

(** The hour and minute fields of a wall-clock reading, read back with
    [parseInt], give the minute of the day, shifted by a whole day when
    the hour cycle prints midnight as 24: in either cycle the value
    stays inside one window of 1440 minutes. *)
Lemma clock_fields (hour24 : bool) (ms : Z) :
  exists hh mm a : Z,
    parseInt10 (if String.eqb (hourField hour24 ms) "" then "0"
                else hourField hour24 ms) = Num hh /\
    parseInt10 (if String.eqb (minuteField ms) "" then "0"
                else minuteField ms) = Num mm /\
    hh * 60 + mm = (ms / 60000) mod 1440 + 1440 * a /\
    (if hour24 then 60 <= hh * 60 + mm < 1500 else 0 <= hh * 60 + mm < 1440).
Proof.
  unfold hourField, minuteField.
  set (x := ms / 60000).
  assert (Ex : ms / 3600000 = x / 60).
  { unfold x. rewrite Z.div_div by lia. reflexivity. }
  rewrite Ex.
  pose proof (Z.mod_pos_bound (x / 60) 24 ltac:(lia)) as Bh.
  pose proof (Z.mod_pos_bound x 60 ltac:(lia)) as Bm.
  pose proof (minutes_of_day x) as Hmd.
  set (h := (x / 60) mod 24) in *.
  set (mi := x mod 60) in *.
  set (h' := if hour24 && (h =? 0) then 24 else h).
  assert (Bh' : 0 <= h' < 100) by (unfold h'; destruct (hour24 && (h =? 0)); lia).
  rewrite (pad2_nonempty h' Bh'), (pad2_nonempty mi) by lia.
  rewrite (pad2_parse h' Bh'), (pad2_parse mi) by lia.
  exists h', mi, (if hour24 && (h =? 0) then 1 else 0).
  split; [reflexivity|]. split; [reflexivity|].
  unfold h'. destruct hour24; simpl; destruct (Z.eqb_spec h 0); lia.
Qed.

Lemma wallClock_minutes (f : Z -> Z) (t : Z) :
  wallClock f t / 60000 = t / 60000 + f t.
Proof.
  unfold wallClock.
  replace (t + 60000 * f t) with (t + f t * 60000) by lia.
  apply Z.div_add. lia.
Qed.

(** Whatever the zone, the resolver returns a whole number of minutes
    between -720 and 720, both included, congruent to the zone's offset
    modulo a day. *)
Lemma getTimezoneOffset_closed_range (zoneRules : string -> option (Z -> Z))
  (hour24 : bool) (tz : string) (f : Z -> Z) (t : Z) :
  zoneRules tz = Some f ->
  exists r k : Z,
    getTimezoneOffset zoneRules hour24 tz t = Some (Num r) /\
    -720 <= r <= 720 /\ r = f t + 1440 * k.
Proof.
  intros Hz. unfold getTimezoneOffset. rewrite Hz.
  destruct (clock_fields hour24 (wallClock utcRules t))
    as (uh & um & ua & -> & -> & Eu & Wu).
  destruct (clock_fields hour24 (wallClock f t))
    as (th & tm & ta & -> & -> & Et & Wt).
  rewrite wallClock_minutes in Eu, Et. unfold utcRules in Eu.
  cbn [jsAdd jsMul jsLift2 jsGt jsLt].
  pose proof (Z.div_mod (t / 60000 + 0) 1440 ltac:(lia)) as Du.
  pose proof (Z.mod_pos_bound (t / 60000 + 0) 1440 ltac:(lia)) as Bu.
  pose proof (Z.div_mod (t / 60000 + f t) 1440 ltac:(lia)) as Dt.
  pose proof (Z.mod_pos_bound (t / 60000 + f t) 1440 ltac:(lia)) as Bt.
  set (qu := (t / 60000 + 0) / 1440) in *.
  set (qt := (t / 60000 + f t) / 1440) in *.
  set (D := th * 60 + tm + -1 * (uh * 60 + um)).
  assert (ED : D = f t + 1440 * (qu - qt + ta - ua)) by (unfold D; lia).
  assert (BD : -1440 < D < 1440) by (unfold D; destruct hour24; lia).
  destruct (Z.ltb_spec (12 * 60) D) as [H1|H1]; cbn [jsAdd jsLift2 jsGt].
  - destruct (Z.ltb_spec (D + - (24 * 60)) (- (12 * 60))) as [H2|H2].
    + lia.
    + exists (D + - (24 * 60)), (qu - qt + ta - ua - 1).
      split; [reflexivity|]. lia.
  - destruct (Z.ltb_spec D (- (12 * 60))) as [H2|H2]; cbn [jsAdd jsLift2].
    + exists (D + 24 * 60), (qu - qt + ta - ua + 1).
      split; [reflexivity|]. lia.
    + exists D, (qu - qt + ta - ua).
      split; [reflexivity|]. lia.
Qed.

(** C7.  When the runtime knows every supported zone and places it
    strictly within twelve hours of UTC, the resolver returns, for every
    supported zone and instant, the zone's offset at that instant: a
    whole number of minutes above -720 and at most 720; being a function
    of the zone and the instant, it returns the same value each time. *)
Theorem getTimezoneOffset_supported_range
  (zoneRules : string -> option (Z -> Z)) (hour24 : bool) :
  (forall tz, In tz supportedZones ->
     exists f, zoneRules tz = Some f /\ forall t, -720 < f t < 720) ->
  forall tz t, In tz supportedZones ->
    exists r : Z,
      getTimezoneOffset zoneRules hour24 tz t = Some (Num r) /\
      -720 < r <= 720 /\
      (forall f, zoneRules tz = Some f -> r = f t) /\
      (forall r', getTimezoneOffset zoneRules hour24 tz t = Some (Num r') -> r' = r).
Proof.
  intros Hdb tz t Hin.
  destruct (Hdb tz Hin) as (f & Hz & Hf).
  destruct (getTimezoneOffset_closed_range zoneRules hour24 tz f t Hz)
    as (r & k & Hr & Br & Er).
  specialize (Hf t).
  assert (r = f t) by lia.
  exists r. split; [exact Hr|]. split; [lia|]. split.
  - intros f' Hz'. rewrite Hz in Hz'. now injection Hz' as <-.
  - intros r' Hr'. rewrite Hr in Hr'. now injection Hr' as <-.
Qed.

Lemma sampleZones_supported (tz : string) :
  In tz supportedZones ->
  exists f, sampleZones tz = Some f /\ forall t, -720 < f t < 720.
Proof.
  unfold supportedZones, TIMEZONES. simpl.
  intros H.
  repeat (destruct H as [<-|H];
          [eexists; split; [reflexivity | intros; simpl; lia] |]).
  contradiction.
Qed.

Lemma getTimezoneOffset_supported_range_witness :
  exists r : Z,
    getTimezoneOffset sampleZones true "America/New_York" 1762207200000
    = Some (Num r) /\
    -720 < r <= 720 /\
    (forall f, sampleZones "America/New_York" = Some f -> r = f 1762207200000) /\
    (forall r', getTimezoneOffset sampleZones true "America/New_York" 1762207200000
                = Some (Num r') -> r' = r).
Proof.
  apply (getTimezoneOffset_supported_range sampleZones true sampleZones_supported
           "America/New_York" 1762207200000).
  unfold supportedZones, TIMEZONES. simpl. tauto.
Defined.

(** A zone twelve hours east of UTC shows why the lower bound is open
    only for zones strictly inside the twelve hours: in the afternoon
    (UTC) the resolver returns -720 for it. *)
Example getTimezoneOffset_twelve_hours_east :
  getTimezoneOffset sampleZones false "Pacific/Auckland" 1762207200000
  = Some (Num (-720)).
Proof. vm_compute. reflexivity. Qed.

(** ** Slot conversion *)

Section Conversion.

Variable zoneRules : string -> option (Z -> Z).
Variable hour24 : bool.
Variable legacyDateParse : string -> option Z.

Local Abbreviation convertSlot' := (convertSlot zoneRules hour24 legacyDateParse).
Local Abbreviation convertSlots' := (convertSlots zoneRules hour24 legacyDateParse).
Local Abbreviation convertEntry' := (convertEntry zoneRules hour24 legacyDateParse).
Local Abbreviation fillSlotsMap' := (fillSlotsMap zoneRules hour24 legacyDateParse).
Local Abbreviation buildSlotsMap' := (buildSlotsMap zoneRules hour24 legacyDateParse).

Lemma convertSlot_builtFrom (tz slotTime : string) (slot : TimeSlot) :
  convertSlot' tz slotTime = Some slot -> builtFrom slotTime slot.
Proof.
  unfold convertSlot.
  destruct (toLocaleTimeString _ _ _ _); [|discriminate].
  intros [= <-]. repeat split.
Qed.

Lemma convertSlots_In (tz : string) (l : list string) (out : list TimeSlot) :
  convertSlots' tz l = Some out ->
  forall slot, In slot out ->
    exists slotTime, In slotTime l /\ convertSlot' tz slotTime = Some slot.
Proof.
  revert out. induction l as [|ts l IH]; simpl; intros out H slot Hin.
  - injection H as <-. contradiction.
  - destruct (convertSlot' tz ts) as [s0|] eqn:E0; [|discriminate].
    destruct (convertSlots' tz l) as [out'|]; [|discriminate].
    injection H as <-. destruct Hin as [<-|Hin].
    + exists ts. auto.
    + destruct (IH out' eq_refl slot Hin) as (ts' & ? & ?). exists ts'. auto.
Qed.

Lemma convertEntry_In (tz : string) (e : option DayEntry) (out : list TimeSlot) :
  convertEntry' tz e = Some out ->
  forall slot, In slot out ->
    exists slotTime, In slotTime (entrySlots e) /\ builtFrom slotTime slot.
Proof.
  intros H slot Hin.
  destruct e as [[|l|]|]; simpl in H; try discriminate;
    try (injection H as <-; contradiction).
  destruct (convertSlots_In tz l out H slot Hin) as (ts & ? & Hc).
  exists ts. split; [assumption | exact (convertSlot_builtFrom _ _ _ Hc)].
Qed.

Lemma objSet_In {A : Type} (o : list (string * A)) (k : string) (v : A)
  (k' : string) (v' : A) :
  In (k', v') (objSet o k v) -> (k' = k /\ v' = v) \/ In (k', v') o.
Proof.
  induction o as [|[k0 v0] o IH]; simpl.
  - intros [[= <- <-]|[]]. auto.
  - destruct (String.eqb_spec k0 k) as [->|Hne]; simpl.
    + intros [[= <- <-]|H]; auto.
    + intros [H|H]; auto. destruct (IH H); auto.
Qed.

Lemma fillSlotsMap_In (tz : string) (data : SlotsData) (keys : list string)
  (acc m : SlotsMap) :
  fillSlotsMap' tz data keys acc = Some m ->
  forall key l, In (key, l) m ->
    In (key, l) acc \/ convertEntry' tz (objGet data key) = Some l.
Proof.
  revert acc. induction keys as [|k keys IH]; simpl; intros acc H key l Hin.
  - injection H as <-. auto.
  - destruct (convertEntry' tz (objGet data k)) as [lk|] eqn:Ek; [|discriminate].
    destruct (IH _ H key l Hin) as [Hacc|Hc]; [|auto].
    destruct (objSet_In _ _ _ _ _ Hacc) as [[-> ->]|Hold]; auto.
Qed.

(** C10.  Every slot the conversion callback builds is available, has
    its end equal to its start, and carries the provider timestamp it
    was built from, unchanged; this holds of every slot of every entry
    of the map the range fetch builds and of every slot of the list the
    single-date fetch builds, each slot coming from a timestamp listed
    in the response under that date. *)
Theorem converted_slots_shape (tz : string) :
  (forall slotTime slot,
     convertSlot' tz slotTime = Some slot -> builtFrom slotTime slot)
  /\
  (forall data m key l slot,
     buildSlotsMap' tz data = Some m -> In (key, l) m -> In slot l ->
     exists slotTime,
       In slotTime (entrySlots (objGet data key)) /\ builtFrom slotTime slot)
  /\
  (forall data date l slot,
     convertEntry' tz (objGet data date) = Some l -> In slot l ->
     exists slotTime,
       In slotTime (entrySlots (objGet data date)) /\ builtFrom slotTime slot).
Proof.
  split; [exact (convertSlot_builtFrom tz)|]. split.
  - intros data m key l slot Hb Hin Hs.
    destruct (fillSlotsMap_In tz data _ [] m Hb key l Hin) as [[]|Hc].
    exact (convertEntry_In tz _ l Hc slot Hs).
  - intros data date l slot Hc Hs.
    exact (convertEntry_In tz _ l Hc slot Hs).
Qed.

End Conversion.

Lemma converted_slots_shape_witness :
  builtFrom "2025-11-03T16:00:00-06:00"
    (mkTimeSlot "17:00:00" "17:00:00" true (Some "2025-11-03T16:00:00-06:00"))
  /\
  (exists slotTime,
     In slotTime (entrySlots (objGet sampleData "2025-11-03")) /\
     builtFrom slotTime
       (mkTimeSlot "17:00:00" "17:00:00" true (Some "2025-11-03T16:00:00-06:00")))
  /\
  (exists slotTime,
     In slotTime (entrySlots (objGet sampleData "2025-11-03")) /\
     builtFrom slotTime
       (mkTimeSlot "10:00:00" "10:00:00" true (Some "2025-11-03T16:00:00-06:00"))).
Proof.
  pose (slotNY := mkTimeSlot "17:00:00" "17:00:00" true (Some "2025-11-03T16:00:00-06:00")).
  pose (slotAK := mkTimeSlot "10:00:00" "10:00:00" true (Some "2025-11-03T16:00:00-06:00")).
  split; [|split].
  - apply (proj1 (converted_slots_shape sampleZones false noLegacyParse
                    "America/New_York")
             "2025-11-03T16:00:00-06:00" slotNY).
    vm_compute. reflexivity.
  - apply (proj1 (proj2 (converted_slots_shape sampleZones false noLegacyParse
                           "America/New_York"))
             sampleData [("2025-11-03", [slotNY])] "2025-11-03" [slotNY] slotNY).
    + vm_compute. reflexivity.
    + simpl. tauto.
    + simpl. tauto.
  - apply (proj2 (proj2 (converted_slots_shape sampleZones true noLegacyParse
                           "Pacific/Auckland"))
             sampleData "2025-11-03" [slotAK] slotAK).
    + vm_compute. reflexivity.
    + simpl. tauto.
Defined.

(** ** The availability cache *)

Section Cache.

Variable zoneRules : string -> option (Z -> Z).
Variable hour24 : bool.
Variable legacyDateParse : string -> option Z.

Local Abbreviation beginAll := (fetchAllAvailableSlots_begin zoneRules).
Local Abbreviation resolveAll :=
  (fetchAllAvailableSlots_resolve zoneRules hour24 legacyDateParse).
Local Abbreviation beginDate := (fetchAvailableSlots_begin zoneRules legacyDateParse).
Local Abbreviation resolveDate :=
  (fetchAvailableSlots_resolve zoneRules hour24 legacyDateParse).
Local Abbreviation buildSlotsMap' := (buildSlotsMap zoneRules hour24 legacyDateParse).
Local Abbreviation convertEntry' := (convertEntry zoneRules hour24 legacyDateParse).

(** The timezone a suspended fetch compares with its captured one is the
    constant of its own render: the two are equal for every fetch that
    was started, whatever happens to the live state meanwhile. *)
Lemma beginAll_guard (render live st : State) (p : Pending) :
  beginAll render live = (st, Some p) ->
  closure p = render /\ tzAtStart p = selectedTimezone (closure p).
Proof.
  unfold fetchAllAvailableSlots_begin.
  destruct (zoneRules ghlTimezone); intros [= <- <-]. auto.
Qed.

Lemma beginDate_guard (date : string) (render live st : State) (p : Pending) :
  beginDate date render live = (st, Some p) ->
  closure p = render /\ tzAtStart p = selectedTimezone (closure p)
  /\ fetchDate p = date.
Proof.
  unfold fetchAvailableSlots_begin.
  destruct (dateParse _ _); [|discriminate].
  destruct (zoneRules ghlTimezone); intros [= <- <-]. auto.
Qed.

(** C9.  For a range fetch that was started: a response without data
    leaves the map of the live state as it is; a response with data
    whose conversion succeeds puts the freshly built map in its place,
    whatever the map held before; and in every case the map afterwards
    is either the previous one or a completely built one. *)
Theorem range_fetch_write_is_atomic (render live0 st0 : State) (p : Pending)
  (r : Response) (live : State) :
  beginAll render live0 = (st0, Some p) ->
  allSlots st0 = allSlots live0
  /\
  (isNetworkFailure r = true -> allSlots (resolveAll p r live) = allSlots live)
  /\
  (forall data m,
     r = JsonObject data ->
     buildSlotsMap' (selectedTimezone render) data = Some m ->
     allSlots (resolveAll p r live) = m)
  /\
  (allSlots (resolveAll p r live) = allSlots live \/
   exists data,
     r = JsonObject data /\
     buildSlotsMap' (selectedTimezone render) data
     = Some (allSlots (resolveAll p r live))).
Proof.
  intros Hb. destruct (beginAll_guard _ _ _ _ Hb) as [Hc Hg].
  split.
  { unfold fetchAllAvailableSlots_begin in Hb.
    destruct (zoneRules ghlTimezone); injection Hb as <- _; reflexivity. }
  unfold fetchAllAvailableSlots_resolve.
  rewrite Hg, String.eqb_refl, Hc. cbn [negb].
  split; [|split].
  - destruct r; simpl; intros H; try discriminate; reflexivity.
  - intros data m -> Hm. rewrite Hm. reflexivity.
  - destruct r as [| | | |data]; try (left; reflexivity).
    destruct (buildSlotsMap' (selectedTimezone render) data) as [m|] eqn:Em.
    + right. exists data. split; [reflexivity|]. rewrite Em. reflexivity.
    + left. reflexivity.
Qed.

(** Resolving a started range fetch never looks at the timezone of the
    live state: changing it commutes with the resolution. *)
Lemma resolveAll_ignores_live_timezone (render live0 st0 : State) (p : Pending)
  (r : Response) (live : State) (tz : string) :
  beginAll render live0 = (st0, Some p) ->
  resolveAll p r (setSelectedTimezone tz live)
  = setSelectedTimezone tz (resolveAll p r live).
Proof.
  intros Hb. destruct (beginAll_guard _ _ _ _ Hb) as [Hc Hg].
  unfold fetchAllAvailableSlots_resolve.
  rewrite Hg, String.eqb_refl. cbn [negb].
  destruct r as [| | | |data]; try reflexivity.
  destruct (buildSlotsMap' _ data); reflexivity.
Qed.

Lemma resolveDate_ignores_live_timezone (date : string) (render live0 st0 : State)
  (p : Pending) (r : Response) (live : State) (tz : string) :
  beginDate date render live0 = (st0, Some p) ->
  resolveDate p r (setSelectedTimezone tz live)
  = setSelectedTimezone tz (resolveDate p r live).
Proof.
  intros Hb. destruct (beginDate_guard _ _ _ _ _ Hb) as (Hc & Hg & _).
  unfold fetchAvailableSlots_resolve.
  rewrite Hg, String.eqb_refl. cbn [negb].
  destruct r as [| | | |data]; try reflexivity.
  destruct (convertEntry _ _ _ _ _); reflexivity.
Qed.

End Cache.

Lemma range_fetch_write_is_atomic_witness :
  allSlots (fetchAllAvailableSlots_resolve sampleZones false noLegacyParse
              (mkPending mountedMexico "America/Mexico_City" "") FetchRejected
              (setAllSlots [("2025-11-04", [])] mountedMexico))
  = [("2025-11-04", [])]
  /\
  allSlots (fetchAllAvailableSlots_resolve sampleZones false noLegacyParse
              (mkPending mountedMexico "America/Mexico_City" "")
              (JsonObject sampleData)
              (setAllSlots [("2025-11-04", [])] mountedMexico))
  = [("2025-11-03", [slotAt "16:00:00"])].
Proof.
  split.
  - apply (proj1 (proj2 (range_fetch_write_is_atomic sampleZones false noLegacyParse
                    mountedMexico mountedMexico
                    (setInitialLoading true mountedMexico)
                    (mkPending mountedMexico "America/Mexico_City" "")
                    FetchRejected
                    (setAllSlots [("2025-11-04", [])] mountedMexico) eq_refl))).
    reflexivity.
  - apply (proj1 (proj2 (proj2 (range_fetch_write_is_atomic sampleZones false
                    noLegacyParse mountedMexico mountedMexico
                    (setInitialLoading true mountedMexico)
                    (mkPending mountedMexico "America/Mexico_City" "")
                    (JsonObject sampleData)
                    (setAllSlots [("2025-11-04", [])] mountedMexico) eq_refl)))
             sampleData).
    + reflexivity.
    + vm_compute. reflexivity.
Defined.

(** C1.  The guard of the range fetch does not see a timezone change.
    The session is mounted in America/Mexico_City and its range fetch is
    in flight; the viewer switches to America/New_York, which starts a
    second range fetch.  The second fetch resolves, and the cache holds
    New York times; then the first, stale fetch resolves, and the cache
    is overwritten with Mexico City times while the selected timezone is
    still America/New_York. *)
Theorem stale_range_fetch_overwrites_cache :
  exists (st1 st2 : State) (pA pB : Pending),
    timezoneEffect sampleZones mountedMexico = (st1, Some pA) /\
    selectTimezone sampleZones "America/New_York" st1 = (st2, Some pB) /\
    let afterB := fetchAllAvailableSlots_resolve sampleZones false noLegacyParse
                    pB (JsonObject sampleData) st2 in
    let afterA := fetchAllAvailableSlots_resolve sampleZones false noLegacyParse
                    pA (JsonObject sampleData) afterB in
    tzAtStart pA = "America/Mexico_City" /\
    selectedTimezone st2 = "America/New_York" /\
    allSlots afterB = [("2025-11-03", [slotAt "17:00:00"])] /\
    selectedTimezone afterA = "America/New_York" /\
    allSlots afterA = [("2025-11-03", [slotAt "16:00:00"])].
Proof.
  do 4 eexists. split; [reflexivity|]. split; [reflexivity|].
  vm_compute. repeat split.
Qed.

(** The single-date fetch has the same blind guard: a fetch for a date
    started under America/Mexico_City and resolved after the switch to
    America/New_York fills the slot list with Mexico City times. *)
Example stale_date_fetch_fills_slot_list :
  exists (st1 st2 : State) (pD pB : Pending),
    dateEffect sampleZones sampleLegacyParse
      (handleDateSelect "2025-11-03" mountedMexico)
    = (st1, Some pD) /\
    selectTimezone sampleZones "America/New_York" st1 = (st2, Some pB) /\
    let after := fetchAvailableSlots_resolve sampleZones false sampleLegacyParse
                   pD (JsonObject sampleData) st2 in
    selectedTimezone after = "America/New_York" /\
    availableSlots after = [slotAt "16:00:00"].
Proof.
  do 4 eexists. split; [reflexivity|]. split; [reflexivity|].
  vm_compute. split; reflexivity.
Qed.

(** ** The scenario of 2025-11-03 *)

(** C3, as the code has it.  In a runtime where America/New_York is five
    hours behind UTC at the instant of the provider slot
    "2025-11-03T16:00:00-06:00", the slot is shown at "17:00:00"; its
    display-side end time is "17:45" (hours and minutes only, rendered
    as 05:45 p. m.); and the booking request ends at
    "2025-11-03T16:45:00-06:00". *)
Theorem scenario_new_york_slot
  (zoneRules : string -> option (Z -> Z)) (hour24 : bool)
  (legacyDateParse : string -> option Z) (f : Z -> Z) :
  zoneRules "America/New_York" = Some f ->
  f 1762207200000 = -300 ->
  exists slot : TimeSlot,
    convertSlot zoneRules hour24 legacyDateParse "America/New_York"
      "2025-11-03T16:00:00-06:00" = Some slot /\
    startTime slot = "17:00:00" /\
    getEndTime (startTime slot) = "17:45" /\
    formatTimeForDisplay (getEndTime (startTime slot)) = "05:45 p. m." /\
    bookingTimes (Some slot)
    = inr ("2025-11-03T16:00:00-06:00", "2025-11-03T16:45:00-06:00").
Proof.
  intros Hz Hf.
  unfold convertSlot, toLocaleTimeString, dateParse.
  replace (parseOffsetTimestamp "2025-11-03T16:00:00-06:00")
    with (Some 1762207200000) by (vm_compute; reflexivity).
  rewrite Hz. unfold wallClock. rewrite Hf.
  eexists. split.
  - destruct hour24; vm_compute; reflexivity.
  - vm_compute. repeat split.
Qed.

Lemma scenario_new_york_slot_witness :
  exists slot : TimeSlot,
    convertSlot sampleZones true noLegacyParse "America/New_York"
      "2025-11-03T16:00:00-06:00" = Some slot /\
    startTime slot = "17:00:00" /\
    getEndTime (startTime slot) = "17:45" /\
    formatTimeForDisplay (getEndTime (startTime slot)) = "05:45 p. m." /\
    bookingTimes (Some slot)
    = inr ("2025-11-03T16:00:00-06:00", "2025-11-03T16:45:00-06:00").
Proof.
  apply (scenario_new_york_slot sampleZones true noLegacyParse (fun _ => -300)).
  - reflexivity.
  - reflexivity.
Defined.

(** The display-side end time of that slot is not "17:45:00". *)
Lemma scenario_display_end_has_no_seconds :
  convertSlot sampleZones false noLegacyParse "America/New_York"
    "2025-11-03T16:00:00-06:00" = Some (slotAt "17:00:00") /\
  getEndTime (startTime (slotAt "17:00:00")) <> "17:45:00".
Proof.
  split.
  - vm_compute. reflexivity.
  - vm_compute. discriminate.
Qed.

(** ** Month navigation *)

Lemma ascii_compare_trans_lt (a b c : ascii) :
  Ascii.compare a b = Lt -> Ascii.compare b c = Lt -> Ascii.compare a c = Lt.
Proof.
  unfold Ascii.compare. rewrite !N.compare_lt_iff. apply N.lt_trans.
Qed.

Lemma string_compare_refl (s : string) : String.compare s s = Eq.
Proof.
  induction s as [|c s IH]; simpl; [reflexivity|].
  unfold Ascii.compare. rewrite N.compare_refl. exact IH.
Qed.

Lemma string_compare_trans_lt (s1 : string) :
  forall s2 s3, String.compare s1 s2 = Lt -> String.compare s2 s3 = Lt ->
                String.compare s1 s3 = Lt.
Proof.
  induction s1 as [|a s1 IH]; intros [|b s2] [|c s3]; simpl;
    try discriminate; try reflexivity.
  destruct (Ascii.compare a b) eqn:Eab; try discriminate;
    destruct (Ascii.compare b c) eqn:Ebc; try discriminate; intros H12 H23.
  - apply Ascii.compare_eq_iff in Eab, Ebc. subst.
    unfold Ascii.compare. rewrite N.compare_refl. eauto.
  - apply Ascii.compare_eq_iff in Eab. subst. rewrite Ebc. reflexivity.
  - apply Ascii.compare_eq_iff in Ebc. subst. rewrite Eab. reflexivity.
  - rewrite (ascii_compare_trans_lt _ _ _ Eab Ebc). reflexivity.
Qed.

Lemma string_leb_refl (s : string) : String.leb s s = true.
Proof. unfold String.leb. now rewrite string_compare_refl. Qed.

Lemma string_leb_trans (s1 s2 s3 : string) :
  String.leb s1 s2 = true -> String.leb s2 s3 = true -> String.leb s1 s3 = true.
Proof.
  unfold String.leb.
  destruct (String.compare s1 s2) eqn:E12; try discriminate;
    destruct (String.compare s2 s3) eqn:E23; try discriminate; intros _ _.
  - apply String.compare_eq_iff in E12, E23. subst.
    now rewrite string_compare_refl.
  - apply String.compare_eq_iff in E12. subst. now rewrite E23.
  - apply String.compare_eq_iff in E23. subst. now rewrite E12.
  - now rewrite (string_compare_trans_lt _ _ _ E12 E23).
Qed.

Lemma insertSorted_In (x y : string) (l : list string) :
  In y (insertSorted x l) <-> y = x \/ In y l.
Proof.
  induction l as [|z l IH]; simpl.
  - intuition.
  - destruct (String.leb x z); simpl; rewrite ?IH; intuition.
Qed.

Lemma sortStrings_In (y : string) (l : list string) :
  In y (sortStrings l) <-> In y l.
Proof.
  induction l as [|x l IH]; simpl; [tauto|].
  rewrite insertSorted_In, IH. intuition.
Qed.

(** The head of an insertion is below the inserted string and below the
    head of the list inserted into. *)
Lemma insertSorted_head (x : string) (l : list string) :
  exists h t, insertSorted x l = h :: t /\
    String.leb h x = true /\
    match l with
    | [] => True
    | z :: _ => String.leb h z = true
    end.
Proof.
  destruct l as [|z l]; simpl.
  - exists x, []. auto using string_leb_refl.
  - destruct (String.leb x z) eqn:E.
    + exists x, (z :: l). auto using string_leb_refl.
    + exists z, (insertSorted x l). repeat split.
      * destruct (String.leb_total x z) as [H|H]; congruence.
      * apply string_leb_refl.
Qed.

(** The first element of a sorted list is below all the elements of the
    list that was sorted. *)
Lemma sortStrings_head_least (l : list string) (h : string) (t : list string) :
  sortStrings l = h :: t -> forall y, In y l -> String.leb h y = true.
Proof.
  revert h t. induction l as [|x l IH]; intros h t; simpl; [discriminate|].
  intros E y Hy.
  destruct (insertSorted_head x (sortStrings l)) as (h' & t' & E' & Hx & Hz).
  rewrite E in E'. injection E' as <- <-.
  destruct Hy as [<-|Hy]; [exact Hx|].
  destruct (sortStrings l) as [|z r] eqn:Es.
  - apply sortStrings_In in Hy. rewrite Es in Hy. contradiction.
  - apply string_leb_trans with z; [exact Hz|].
    exact (IH z r eq_refl y Hy).
Qed.

Lemma candidateDates_In (m : SlotsMap) (monthPrefix d : string) :
  In d (candidateDates m monthPrefix) <-> isCandidate m monthPrefix d.
Proof.
  unfold candidateDates, isCandidate.
  rewrite sortStrings_In, filter_In, andb_true_iff. tauto.
Qed.

Lemma daysInMonth_min (y m : Z) : 28 <= daysInMonth y m.
Proof.
  unfold daysInMonth.
  destruct (m =? 2); [destruct (isLeapYear y); lia|].
  destruct (_ || _); lia.
Qed.

(** Moving the first of a month by [delta] months gives the first of the
    month that many months away. *)
Lemma setMonth_from_first (d : CalDate) (delta : Z) :
  let target := setMonth (setDate1 d) (monthIndex (setDate1 d) + delta) in
  dayOfMonth target = 1 /\
  0 <= monthIndex target <= 11 /\
  fullYear target * 12 + monthIndex target
  = fullYear d * 12 + monthIndex d + delta.
Proof.
  unfold setMonth, setDate1. cbn [fullYear monthIndex dayOfMonth].
  set (mm := monthIndex d + delta).
  pose proof (daysInMonth_min (fullYear d + mm / 12) (mm mod 12 + 1)) as Hd.
  destruct (Z.leb_spec 1 (daysInMonth (fullYear d + mm / 12) (mm mod 12 + 1)));
    [|lia].
  cbn [fullYear monthIndex dayOfMonth].
  pose proof (Z.mod_pos_bound mm 12 ltac:(lia)).
  pose proof (Z.div_mod mm 12 ltac:(lia)).
  lia.
Qed.

Lemma navigateMonth_currentMonth (direction : Direction) (s : State) :
  currentMonth (navigateMonth direction s)
  = setMonth (setDate1 (currentMonth s))
      (monthIndex (setDate1 (currentMonth s))
       + match direction with prev => -1 | next => 1 end).
Proof.
  unfold navigateMonth. destruct (candidateDates _ _); reflexivity.
Qed.

(** C6.  From any current date, month navigation lands on day 1 of the
    month just before or just after; it then selects the least, in
    string order, of the cached dates of that month that have slots,
    together with its slots, and clears the selected date and the slot
    list when that month has no such date. *)
Theorem navigateMonth_first_available (direction : Direction) (s : State) :
  let s' := navigateMonth direction s in
  let target := currentMonth s' in
  let pre := monthPrefixOf target in
  dayOfMonth target = 1 /\
  0 <= monthIndex target <= 11 /\
  fullYear target * 12 + monthIndex target
  = fullYear (currentMonth s) * 12 + monthIndex (currentMonth s)
    + match direction with prev => -1 | next => 1 end /\
  ((exists d, isCandidate (allSlots s) pre d) ->
   isCandidate (allSlots s) pre (selectedDate s') /\
   (forall d, isCandidate (allSlots s) pre d -> String.leb (selectedDate s') d = true) /\
   objGet (allSlots s) (selectedDate s') = Some (availableSlots s')) /\
  ((forall d, ~ isCandidate (allSlots s) pre d) ->
   selectedDate s' = "" /\ availableSlots s' = []).
Proof.
  intros s' target pre.
  assert (Et : target = setMonth (setDate1 (currentMonth s))
      (monthIndex (setDate1 (currentMonth s))
       + match direction with prev => -1 | next => 1 end))
    by apply navigateMonth_currentMonth.
  destruct (setMonth_from_first (currentMonth s)
              match direction with prev => -1 | next => 1 end) as (H1 & H2 & H3).
  rewrite <- Et in H1, H2, H3.
  split; [exact H1|]. split; [exact H2|]. split; [exact H3|].
  assert (Es : s' = navigateMonth direction s) by reflexivity.
  unfold navigateMonth in Es. fold (setDate1 (currentMonth s)) in Es.
  rewrite <- Et in Es. fold pre in Es.
  destruct (candidateDates (allSlots s) pre) as [|firstDate rest] eqn:Ec.
  - rewrite Es. split.
    + intros [d Hd]. apply candidateDates_In in Hd. rewrite Ec in Hd. contradiction.
    + intros _. split; reflexivity.
  - assert (Hf : isCandidate (allSlots s) pre firstDate).
    { apply candidateDates_In. rewrite Ec. left. reflexivity. }
    rewrite Es. cbn [selectedDate availableSlots setAvailableSlots setSelectedDate].
    split.
    + intros _. split; [exact Hf|]. split.
      * intros d Hd. unfold candidateDates in Ec.
        apply (sortStrings_head_least _ _ _ Ec).
        apply filter_In. unfold isCandidate in Hd. rewrite andb_true_iff. tauto.
      * destruct Hf as (_ & _ & Hs). unfold hasSlotsAt in Hs.
        destruct (objGet (allSlots s) firstDate); [reflexivity|discriminate].
    + intros Hn. destruct (Hn firstDate Hf).
Qed.

Lemma navigateMonth_first_available_witness :
  let s' := navigateMonth next october31 in
  currentMonth s' = mkCalDate 2025 10 1 /\
  selectedDate s' = "2025-11-12" /\
  availableSlots s' = [slotAt "11:00:00"] /\
  String.leb (selectedDate s') "2025-11-20" = true /\
  selectedDate (navigateMonth prev october31) = "" /\
  availableSlots (navigateMonth prev october31) = [].
Proof.
  destruct (navigateMonth_first_available next october31)
    as (_ & _ & _ & Hsel & _).
  destruct (navigateMonth_first_available prev october31)
    as (_ & _ & _ & _ & Hclr).
  destruct Hsel as (_ & Hleast & _).
  { exists "2025-11-20". vm_compute. tauto. }
  destruct Hclr as [Hd Ha].
  { intros d (Hin & Hp & Hs). simpl in Hin.
    destruct Hin as [<-|[<-|[<-|[<-|[]]]]]; vm_compute in Hp; discriminate. }
  split; [reflexivity|]. split; [reflexivity|]. split; [reflexivity|].
  split; [|split; [exact Hd | exact Ha]].
  apply Hleast. vm_compute. tauto.
Defined.

(** Without the reset to day 1, moving a month on from January 31 would
    land in March. *)
Example setMonth_overflow_without_reset :
  setMonth (mkCalDate 2025 0 31) 1 = mkCalDate 2025 2 3 /\
  setMonth (setDate1 (mkCalDate 2025 0 31)) 1 = mkCalDate 2025 1 1.
Proof. vm_compute. split; reflexivity. Qed.

(** ** Timezone detection at mount *)

Lemma defaultZone_supported : In defaultZone supportedZones.
Proof. vm_compute. tauto. Qed.

(** C8.  Whatever the runtime reports -- a zone name, nothing, or an
    exception -- the mount effect selects one of the supported zones and
    shows no toast: each supported zone is kept as it is, the alias
    America/Santa_Isabel becomes America/Tijuana, the regional cues pick
    their zone, and an exception, a missing value or an unknown name
    give America/Mexico_City. *)
Theorem detectTimezone_supported (d : Detected) (s : State) :
  In (detectTimezone d) supportedZones /\
  selectedTimezone (mountEffect d s) = detectTimezone d /\
  toasts (mountEffect d s) = toasts s /\
  Forall (fun tz => detectTimezone (DetectTz tz) = tz) supportedZones /\
  detectTimezone (DetectTz "America/Santa_Isabel") = "America/Tijuana" /\
  detectTimezone (DetectTz "America/Ensenada_Tijuana") = "America/Tijuana" /\
  detectTimezone (DetectTz "America/Phoenix") = "America/Los_Angeles" /\
  detectTimezone (DetectTz "America/Guatemala") = "America/Mexico_City" /\
  detectTimezone (DetectTz "Asia/Tokyo") = "America/Mexico_City" /\
  detectTimezone (DetectTz "constructor") = "America/Mexico_City" /\
  detectTimezone DetectUndefined = "America/Mexico_City" /\
  detectTimezone DetectThrows = "America/Mexico_City".
Proof.
  split.
  - destruct d as [| |browserTz]; try apply defaultZone_supported.
    unfold detectTimezone.
    destruct (existsb _ objectPrototypeKeys); [apply defaultZone_supported|].
    set (n := match objGet TZ_ALIASES browserTz with
              | Some a => if String.eqb a "" then browserTz else a
              | None => browserTz
              end).
    destruct (existsb _ TIMEZONES) eqn:Es.
    + apply existsb_exists in Es. destruct Es as (x & Hx & Ex).
      apply String.eqb_eq in Ex. subst n. rewrite <- Ex.
      apply in_map. exact Hx.
    + destruct (includes n "Tijuana"); [vm_compute; tauto|].
      destruct (_ || _); [vm_compute; tauto|].
      destruct (_ || _); vm_compute; tauto.
  - split; [reflexivity|]. split; [reflexivity|]. split.
    + repeat constructor.
    + vm_compute. repeat split.
Qed.

(** * Further properties *)

(** ** Splitting on a single character *)

Lemma append_assoc_string (a b c : string) : (a ++ b) ++ c = a ++ (b ++ c).
Proof. induction a as [|x a IH]; simpl; [reflexivity | now rewrite IH]. Qed.

Lemma append_empty_r (a : string) : a ++ "" = a.
Proof. induction a as [|x a IH]; simpl; [reflexivity | now rewrite IH]. Qed.

Lemma single_append (c : ascii) (x : string) : String c "" ++ x = String c x.
Proof. reflexivity. Qed.

Lemma prefix_single (c x : ascii) (r : string) :
  String.prefix (String c "") (String x r) = Ascii.eqb x c.
Proof.
  simpl. destruct (ascii_dec c x) as [->|Hne].
  - rewrite Ascii.eqb_refl. destruct r; reflexivity.
  - symmetry. apply Ascii.eqb_neq. congruence.
Qed.

(** A string without the separator is a single piece. *)
Lemma splitGo_lacks (c : ascii) (a cur : string) :
  lacksChar c a = true -> splitGo (String c "") 0 a cur = [cur ++ a].
Proof.
  revert cur. induction a as [|x a IH]; intros cur H.
  - simpl. now rewrite append_empty_r.
  - cbn [lacksChar] in H. apply andb_true_iff in H. destruct H as [Hx Ha].
    cbn [splitGo]. rewrite prefix_single.
    apply negb_true_iff in Hx. rewrite Hx.
    rewrite (IH _ Ha), append_assoc_string. reflexivity.
Qed.

(** The first piece ends at the first separator. *)
Lemma splitGo_piece (c : ascii) (a r cur : string) :
  lacksChar c a = true ->
  splitGo (String c "") 0 (a ++ String c r) cur
  = (cur ++ a) :: splitGo (String c "") 0 r "".
Proof.
  revert cur. induction a as [|x a IH]; intros cur H.
  - cbn [append splitGo]. rewrite prefix_single, Ascii.eqb_refl.
    now rewrite append_empty_r.
  - cbn [lacksChar] in H. apply andb_true_iff in H. destruct H as [Hx Ha].
    cbn [append splitGo]. rewrite prefix_single.
    apply negb_true_iff in Hx. rewrite Hx.
    rewrite (IH _ Ha), append_assoc_string. reflexivity.
Qed.

Lemma split_piece (c : ascii) (a r : string) :
  lacksChar c a = true ->
  split (a ++ String c r) (String c "") = a :: split r (String c "").
Proof. intros H. unfold split. now rewrite splitGo_piece. Qed.

Lemma split_lacks (c : ascii) (a : string) :
  lacksChar c a = true -> split a (String c "") = [a].
Proof. intros H. unfold split. now rewrite splitGo_lacks. Qed.

Lemma isDigit_neq (a c : ascii) :
  isDigit a = true -> isDigit c = false -> Ascii.eqb a c = false.
Proof.
  intros Ha Hc. apply Ascii.eqb_neq. intros ->. congruence.
Qed.

(** Closes [lacksChar c s = true] for a string of digits and other
    literal characters. *)
Ltac digits_lack :=
  cbn [lacksChar];
  repeat match goal with
         | H : isDigit ?x = true |- context [Ascii.eqb ?x ?c] =>
             rewrite (isDigit_neq x c H eq_refl)
         end;
  reflexivity.

Lemma twoDigits_lacks (c : ascii) (s : string) :
  twoDigits s = true -> isDigit c = false -> lacksChar c s = true.
Proof.
  intros Hs Hc.
  destruct (twoDigits_shape s Hs) as (a & b & -> & Ha & Hb).
  cbn [lacksChar]. now rewrite !isDigit_neq.
Qed.

Lemma pad2_lacks (c : ascii) (n : Z) :
  0 <= n < 100 -> isDigit c = false -> lacksChar c (padStart0 2 (toString n)) = true.
Proof. intros Hn Hc. apply twoDigits_lacks; [now apply pad2_twoDigits | exact Hc]. Qed.

Lemma pad2_Number (n : Z) :
  0 <= n < 100 -> Number (padStart0 2 (toString n)) = Num n.
Proof.
  intros H.
  assert (E : (match Number (padStart0 2 (toString n)) with
               | Num k => k =? n | NaN => false end) = true).
  { revert n H.
    apply (range_check (fun n => match Number (padStart0 2 (toString n)) with
                                 | Num k => k =? n | NaN => false end) 100).
    vm_compute. reflexivity. }
  destruct (Number _); [discriminate|].
  apply Z.eqb_eq in E. now subst.
Qed.

Lemma pad2_inj (n k : Z) :
  0 <= n < 100 -> 0 <= k < 100 ->
  padStart0 2 (toString n) = padStart0 2 (toString k) -> n = k.
Proof.
  intros Hn Hk E.
  pose proof (pad2_parse n Hn) as Pn. rewrite E, (pad2_parse k Hk) in Pn.
  now injection Pn.
Qed.

(** ** Display labels *)

(** The label of a clock reading: the hour on a 12-hour dial, the
    minutes as written, and the half of the day. *)
Lemma formatTimeForDisplay_clock (h mi : Z) (rest : string) :
  0 <= h < 100 -> 0 <= mi < 100 ->
  formatTimeForDisplay
    (padStart0 2 (toString h) ++ ":" ++ padStart0 2 (toString mi) ++ ":" ++ rest)
  = padStart0 2 (toString (if Z.rem h 12 =? 0 then 12 else Z.rem h 12)) ++ ":"
    ++ padStart0 2 (toString mi) ++ " "
    ++ (if 12 <=? h then "p. m." else "a. m.").
Proof.
  intros Hh Hm. unfold formatTimeForDisplay. rewrite !single_append.
  rewrite (split_piece ":" _ _ (pad2_lacks ":" h Hh eq_refl)).
  rewrite (split_piece ":" _ _ (pad2_lacks ":" mi Hm eq_refl)).
  cbn [nth]. rewrite (pad2_parse h Hh). reflexivity.
Qed.

Lemma formatTimeForDisplay_hhmm (h mi : Z) :
  0 <= h < 100 -> 0 <= mi < 100 ->
  formatTimeForDisplay (padStart0 2 (toString h) ++ ":" ++ padStart0 2 (toString mi))
  = padStart0 2 (toString (if Z.rem h 12 =? 0 then 12 else Z.rem h 12)) ++ ":"
    ++ padStart0 2 (toString mi) ++ " "
    ++ (if 12 <=? h then "p. m." else "a. m.").
Proof.
  intros Hh Hm. unfold formatTimeForDisplay. rewrite !single_append.
  rewrite (split_piece ":" _ _ (pad2_lacks ":" h Hh eq_refl)).
  rewrite (split_lacks ":" _ (pad2_lacks ":" mi Hm eq_refl)).
  cbn [nth]. rewrite (pad2_parse h Hh). reflexivity.
Qed.



(** The display-side end time of a clock reading, whatever follows the
    minutes. *)
Lemma getEndTime_clock_any (h mi : Z) (rest : string) :
  0 <= h < 100 -> 0 <= mi < 100 ->
  getEndTime (padStart0 2 (toString h) ++ ":" ++ padStart0 2 (toString mi) ++ ":" ++ rest)
  = padStart0 2 (toString ((h * 60 + mi + 45) / 60)) ++ ":"
    ++ padStart0 2 (toString (Z.rem (h * 60 + mi + 45) 60)).
Proof.
  intros Hh Hm. unfold getEndTime.
  destruct (twoDigits_shape _ (pad2_twoDigits h Hh)) as (a1 & b1 & E1 & _).
  replace (String.eqb _ "") with false by (rewrite E1; reflexivity).
  rewrite !single_append.
  rewrite (split_piece ":" _ _ (pad2_lacks ":" h Hh eq_refl)).
  rewrite (split_piece ":" _ _ (pad2_lacks ":" mi Hm eq_refl)).
  cbn [map nth]. rewrite (pad2_Number h Hh), (pad2_Number mi Hm). reflexivity.
Qed.

(** X2.  For a slot shown at a clock reading up to 23:14, the label of
    its end is the label of the reading 45 minutes later. *)
Theorem end_label_is_45_minutes_later (h mi : Z) (rest : string) :
  0 <= h < 24 -> 0 <= mi < 60 -> h * 60 + mi + 45 < 1440 ->
  formatTimeForDisplay
    (getEndTime
       (padStart0 2 (toString h) ++ ":" ++ padStart0 2 (toString mi) ++ ":" ++ rest))
  = formatTimeForDisplay
      (clock ((h * 60 + mi + 45) / 60) ((h * 60 + mi + 45) mod 60) 0).
Proof.
  intros Hh Hm Ht.
  rewrite getEndTime_clock_any by lia.
  rewrite Z.rem_mod_nonneg by lia.
  assert (Bq : 0 <= (h * 60 + mi + 45) / 60 < 100).
  { split; [apply Z.div_pos; lia|].
    apply Z.div_lt_upper_bound; lia. }
  pose proof (Z.mod_pos_bound (h * 60 + mi + 45) 60 ltac:(lia)) as Br.
  unfold clock.
  rewrite formatTimeForDisplay_hhmm, formatTimeForDisplay_clock by lia.
  reflexivity.
Qed.

Lemma end_label_is_45_minutes_later_witness :
  formatTimeForDisplay (getEndTime "17:00:00") = formatTimeForDisplay "17:45:00".
Proof.
  apply (end_label_is_45_minutes_later 17 0 "00"); lia.
Defined.

(** ** Slots the runtime cannot date *)

Lemma split_comma_lacks (s cur : string) :
  lacksChar "," s = true -> splitGo ", " 0 s cur = [cur ++ s].
Proof.
  revert cur. induction s as [|x s IH]; intros cur H.
  - simpl. now rewrite append_empty_r.
  - cbn [lacksChar] in H. apply andb_true_iff in H. destruct H as [Hx Hs].
    apply negb_true_iff, Ascii.eqb_neq in Hx.
    cbn [splitGo String.prefix].
    destruct (ascii_dec "," x) as [E|_]; [congruence|].
    rewrite (IH _ Hs), append_assoc_string. reflexivity.
Qed.

(** X3.  A provider timestamp the runtime cannot read as a date still
    yields a slot, in any display zone, shown as "Invalid Date"; such a
    slot can never be booked: [handleBooking] always stops before the
    booking call. *)
Theorem undated_slot_is_listed_but_not_bookable
  (zoneRules : string -> option (Z -> Z)) (hour24 : bool)
  (legacyDateParse : string -> option Z) (tz slotTime : string) :
  dateParse legacyDateParse slotTime = None ->
  convertSlot zoneRules hour24 legacyDateParse tz slotTime
  = Some (mkTimeSlot "Invalid Date" "Invalid Date" true (Some slotTime))
  /\
  forall (props : Props) (render : State),
    findSlot (availableSlots render) (selectedTime render)
    = Some (mkTimeSlot "Invalid Date" "Invalid Date" true (Some slotTime)) ->
    bookingCalls (handleBooking_request legacyDateParse props render) = 0%nat.
Proof.
  intros Hd. split.
  - unfold convertSlot, toLocaleTimeString. rewrite Hd. reflexivity.
  - intros props render Hf. unfold handleBooking_request.
    destruct (_ || _); [reflexivity|].
    destruct (String.eqb (contactId props) ""); [reflexivity|].
    rewrite Hf. unfold bookingTimes. cbn [originalGHLTime].
    destruct (String.eqb slotTime ""); [reflexivity|].
    destruct (ghlMatch slotTime); [|reflexivity].
    rewrite Hd. reflexivity.
Qed.

Lemma undated_slot_is_listed_but_not_bookable_witness :
  convertSlot sampleZones false noLegacyParse "Europe/Madrid" "2025-13-40T16:00:00-06:00"
  = Some (mkTimeSlot "Invalid Date" "Invalid Date" true
            (Some "2025-13-40T16:00:00-06:00"))
  /\
  bookingCalls
    (handleBooking_request noLegacyParse sampleProps
       (setSelectedTime "Invalid Date"
          (setSelectedDate "2025-11-03"
             (setAvailableSlots
                [mkTimeSlot "Invalid Date" "Invalid Date" true
                   (Some "2025-13-40T16:00:00-06:00")] initialState))))
  = 0%nat.
Proof.
  assert (H : dateParse noLegacyParse "2025-13-40T16:00:00-06:00" = None)
    by (vm_compute; reflexivity).
  destruct (undated_slot_is_listed_but_not_bookable sampleZones false noLegacyParse
              "Europe/Madrid" "2025-13-40T16:00:00-06:00" H) as [H1 H2].
  split; [exact H1|].
  apply H2. reflexivity.
Defined.

(** ** A viewer in the provider's offset *)

Lemma digitValue_range (c : ascii) : isDigit c = true -> 0 <= digitValue c <= 9.
Proof.
  intros H. apply isDigit_cases in H. unfold digitChars in H. simpl in H.
  repeat (destruct H as [<-|H]; [vm_compute; split; discriminate|]).
  contradiction.
Qed.

Lemma some_inj {A : Type} (a b : A) : Some a = Some b -> a = b.
Proof. now intros [= ->]. Qed.

Lemma digitsValue_two (a b : ascii) :
  digitsValue (String a (String b "")) = 10 * digitValue a + digitValue b.
Proof. unfold digitsValue. cbn [digitsValueAcc]. lia. Qed.

Lemma pad2_of_digits (a b : ascii) :
  isDigit a = true -> isDigit b = true ->
  padStart0 2 (toString (10 * digitValue a + digitValue b)) = String a (String b "").
Proof.
  intros Ha Hb.
  apply isDigit_cases in Ha. apply isDigit_cases in Hb.
  unfold digitChars in *. simpl in Ha, Hb.
  repeat (destruct Ha as [<-|Ha]; [|]); try contradiction;
  repeat (destruct Hb as [<-|Hb]; [|]); try contradiction;
  reflexivity.
Qed.

(** X4.  When the display zone stands, at the instant of a provider
    slot, at the very offset the slot's timestamp carries, the slot is
    shown at the clock reading written in the timestamp (midnight apart
    in a runtime that prints it as 24). *)
Theorem provider_offset_viewer_sees_provider_clock
  (zoneRules : string -> option (Z -> Z)) (hour24 : bool)
  (legacyDateParse : string -> option Z)
  (tz ts : string) (m : GhlMatch) (t : Z) (f : Z -> Z) :
  ghlMatch ts = Some m ->
  parseOffsetTimestamp ts = Some t ->
  zoneRules tz = Some f ->
  f t = offsetMinutesOf m ->
  hour24 = false \/ ghlHour m <> "00" ->
  exists slot : TimeSlot,
    convertSlot zoneRules hour24 legacyDateParse tz ts = Some slot /\
    startTime slot = ghlHour m ++ ":" ++ ghlMin m ++ ":" ++ ghlSec m.
Proof.
  intros Hm Hp Hz Hf Hmid.
  unfold convertSlot, toLocaleTimeString, dateParse. rewrite Hp, Hz.
  assert (Hm' := Hm).
  unfold ghlMatch in Hm.
  destruct (matchClasses ghlPattern ts) eqn:E; [|discriminate].
  injection Hm as <-. unfold ghlPattern in E.
  do 25 (peel E ts).
  destruct ts; [clear E|discriminate E].
  repeat match goal with
         | H : isChar _ _ = true |- _ => apply isChar_eq in H; subst
         end.
  unfold parseOffsetTimestamp in Hp. rewrite Hm' in Hp. clear Hm'.
  cbv zeta in Hp.
  unfold offsetMinutesOf in Hf.
  cbn [String.substring ghlDate ghlHour ghlMin ghlSec ghlOffsetStr] in *.
  rewrite prefix_single in Hp. rewrite prefix_single in Hf.
  repeat rewrite digitsValue_two in Hp. repeat rewrite digitsValue_two in Hf.
  pose proof (digitValue_range c10 Hc10). pose proof (digitValue_range c11 Hc11).
  pose proof (digitValue_range c13 Hc13). pose proof (digitValue_range c14 Hc14).
  pose proof (digitValue_range c16 Hc16). pose proof (digitValue_range c17 Hc17).
  set (hh := 10 * digitValue c10 + digitValue c11) in *.
  set (mi := 10 * digitValue c13 + digitValue c14) in *.
  set (ss := 10 * digitValue c16 + digitValue c17) in *.
  match type of Hp with
  | (if ?c then _ else _) = _ => destruct c eqn:Ec; [|discriminate]
  end.
  rewrite !andb_true_iff in Ec. rewrite !Z.leb_le in Ec.
  apply some_inj in Hp.
  assert (Ew : wallClock f t
               = ((daysFromCivil (digitsValue (String c (String c0 (String c1 (String c2 "")))))
                     (10 * digitValue c4 + digitValue c5)
                     (10 * digitValue c7 + digitValue c8) * 24 + hh) * 60 + mi) * 60000
                 + ss * 1000).
  { unfold wallClock. rewrite Hf. rewrite <- Hp.
    destruct (Ascii.eqb c18 "-"); lia. }
  set (D := daysFromCivil _ _ _) in *.
  assert (Eh : (wallClock f t / 3600000) mod 24 = hh).
  { rewrite Ew.
    replace (((D * 24 + hh) * 60 + mi) * 60000 + ss * 1000)
      with ((mi * 60000 + ss * 1000) + (D * 24 + hh) * 3600000) by lia.
    rewrite Z.div_add by lia.
    rewrite (Z.div_small (mi * 60000 + ss * 1000)) by (unfold mi, ss; lia).
    cbn [Z.add].
    replace (D * 24 + hh) with (hh + D * 24) by lia.
    rewrite Z.mod_add by lia. apply Z.mod_small. unfold hh; lia. }
  assert (Em : (wallClock f t / 60000) mod 60 = mi).
  { rewrite Ew.
    replace (((D * 24 + hh) * 60 + mi) * 60000 + ss * 1000)
      with (ss * 1000 + ((D * 24 + hh) * 60 + mi) * 60000) by lia.
    rewrite Z.div_add by lia.
    rewrite (Z.div_small (ss * 1000)) by (unfold ss; lia).
    cbn [Z.add].
    replace ((D * 24 + hh) * 60 + mi) with (mi + (D * 24 + hh) * 60) by lia.
    rewrite Z.mod_add by lia. apply Z.mod_small. unfold mi; lia. }
  assert (Es : (wallClock f t / 1000) mod 60 = ss).
  { rewrite Ew.
    replace (((D * 24 + hh) * 60 + mi) * 60000 + ss * 1000)
      with ((ss + ((D * 24 + hh) * 60 + mi) * 60) * 1000) by lia.
    rewrite Z.div_mul by lia.
    rewrite Z.mod_add by lia. apply Z.mod_small. unfold ss; lia. }
  assert (Fh : hourField hour24 (wallClock f t) = String c10 (String c11 "")).
  { unfold hourField. rewrite Eh.
    assert (G : (hour24 && (hh =? 0)) = false).
    { destruct Hmid as [->|Hne]; [reflexivity|].
      destruct hour24; [|reflexivity]. cbn [andb].
      apply Z.eqb_neq. intros Z0. apply Hne.
      rewrite <- (pad2_of_digits c10 c11 Hc10 Hc11). fold hh. now rewrite Z0. }
    rewrite G. apply pad2_of_digits; assumption. }
  assert (Fm : minuteField (wallClock f t) = String c13 (String c14 "")).
  { unfold minuteField. rewrite Em. apply pad2_of_digits; assumption. }
  assert (Fs : secondField (wallClock f t) = String c16 (String c17 "")).
  { unfold secondField. rewrite Es. apply pad2_of_digits; assumption. }
  rewrite Fh, Fm, Fs.
  eexists. split; [reflexivity|].
  cbn [startTime append]. unfold split.
  rewrite split_comma_lacks.
  - reflexivity.
  - cbn [lacksChar].
    repeat match goal with
           | H : isDigit ?x = true |- context [Ascii.eqb ?x ?c] =>
               rewrite (isDigit_neq x c H eq_refl)
           end.
    reflexivity.
Qed.

Lemma provider_offset_viewer_sees_provider_clock_witness :
  exists slot : TimeSlot,
    convertSlot sampleZones true noLegacyParse "America/Mexico_City"
      "2025-11-03T16:00:00-06:00" = Some slot /\
    startTime slot = "16" ++ ":" ++ "00" ++ ":" ++ "00".
Proof.
  apply (provider_offset_viewer_sees_provider_clock sampleZones true noLegacyParse
           "America/Mexico_City" "2025-11-03T16:00:00-06:00"
           (mkGhlMatch "2025-11-03" "16" "00" "00" "-06:00")
           1762207200000 (fun _ => -360)).
  - vm_compute. reflexivity.
  - vm_compute. reflexivity.
  - reflexivity.
  - vm_compute. reflexivity.
  - right. discriminate.
Defined.

(** ** Which slot is booked *)

Lemma findSlot_first (pre post : list TimeSlot) (s1 : TimeSlot) (sel : string) :
  (forall s, In s pre -> startTime s <> sel) ->
  startTime s1 = sel ->
  findSlot (pre ++ s1 :: post)%list sel = Some s1.
Proof.
  intros Hpre H1. unfold findSlot.
  induction pre as [|s pre IH]; simpl.
  - rewrite H1, String.eqb_refl. reflexivity.
  - assert (Hs : startTime s <> sel) by (apply Hpre; left; reflexivity).
    apply String.eqb_neq in Hs. rewrite Hs.
    apply IH. intros s' Hin. apply Hpre. right. exact Hin.
Qed.

(** X5.  The selected time is resolved to the first slot of the list
    shown at that time: whatever [handleBooking] posts starts at that
    slot's provider timestamp, so a later slot shown at the same time
    is never the one booked. *)
Theorem booking_takes_first_slot_at_selected_time
  (legacyDateParse : string -> option Z) (props : Props) (render : State)
  (pre post : list TimeSlot) (s1 : TimeSlot) (req : BookingRequest) :
  availableSlots render = (pre ++ s1 :: post)%list ->
  (forall s, In s pre -> startTime s <> selectedTime render) ->
  startTime s1 = selectedTime render ->
  handleBooking_request legacyDateParse props render = BookingPosted req ->
  originalGHLTime s1 = Some (reqStartTime req).
Proof.
  intros Ha Hpre H1 Hreq.
  destruct (handleBooking_request_offset legacyDateParse props render req Hreq)
    as (slot & m & m' & Hf & Ho & _).
  rewrite Ha, (findSlot_first pre post s1 _ Hpre H1) in Hf.
  injection Hf as <-. exact Ho.
Qed.

Lemma booking_takes_first_slot_at_selected_time_witness :
  originalGHLTime (mkTimeSlot "01:30:00" "01:30:00" true (Some "2025-11-02T00:30:00-05:00"))
  = Some "2025-11-02T00:30:00-05:00".
Proof.
  pose (first := mkTimeSlot "01:30:00" "01:30:00" true (Some "2025-11-02T00:30:00-05:00")).
  pose (second := mkTimeSlot "01:30:00" "01:30:00" true (Some "2025-11-02T00:30:00-06:00")).
  pose (st := setSelectedTime "01:30:00"
                (setSelectedDate "2025-11-02"
                   (setAvailableSlots
                      [mkTimeSlot "00:30:00" "00:30:00" true
                         (Some "2025-11-01T23:30:00-05:00"); first; second]
                      initialState))).
  apply (booking_takes_first_slot_at_selected_time noLegacyParse sampleProps st
           [mkTimeSlot "00:30:00" "00:30:00" true (Some "2025-11-01T23:30:00-05:00")]
           [second] first
           (mkBookingRequest "contact-1" "2025-11-02T00:30:00-05:00"
              "2025-11-02T01:15:00-05:00" "Kickoff - Clinica"
              "Videollamada de kickoff con Ana de Clinica")).
  - reflexivity.
  - intros s [<-|[]]. discriminate.
  - reflexivity.
  - vm_compute. reflexivity.
Defined.

(** ** From the component to the provider *)

Lemma append_nonempty_l (a b : string) : a <> "" -> String.eqb (a ++ b) "" = false.
Proof. destruct a; [congruence | reflexivity]. Qed.

(** X6.  A request that [handleBooking] posts always passes the
    required-field check of the appointment route; and when the server
    has its token, the route hands the provider a payload whose start is
    the provider timestamp stored in the selected slot, whose end, contact
    and title are those of the request, and which asks the provider to
    skip its own free-slot validation. *)
Theorem posted_booking_reaches_provider_unchanged
  (legacyDateParse : string -> option Z) (props : Props) (render : State)
  (req : BookingRequest) (env : ServerEnv) (hasSurvey : bool) :
  handleBooking_request legacyDateParse props render = BookingPosted req ->
  appointmentRoute_request env (bodyOfRequest req hasSurvey) <> Reply400 /\
  (falsy (GHL_API_TOKEN env) = false ->
   exists (p : GhlPayload) (slot : TimeSlot),
     appointmentRoute_request env (bodyOfRequest req hasSurvey) = CallProvider p /\
     findSlot (availableSlots render) (selectedTime render) = Some slot /\
     originalGHLTime slot = Some (payStartTime p) /\
     payEndTime p = reqEndTime req /\
     payContactId p = contactId props /\
     payTitle p = "Kickoff - " ++ businessName props /\
     payIgnoreFreeSlotValidation p = true).
Proof.
  intros Hreq.
  destruct (handleBooking_request_offset legacyDateParse props render req Hreq)
    as (slot & m & m' & Hf & Ho & Hm & Hm' & _).
  assert (Hs : String.eqb (reqStartTime req) "" = false)
    by exact (ghlMatch_nonempty _ _ Hm).
  assert (He : String.eqb (reqEndTime req) "" = false)
    by exact (ghlMatch_nonempty _ _ Hm').
  assert (Hfields : String.eqb (reqContactId req) "" = false /\
                    reqContactId req = contactId props /\
                    reqTitle req = "Kickoff - " ++ businessName props).
  { revert Hreq. unfold handleBooking_request.
    destruct (_ || _); [discriminate|].
    destruct (String.eqb (contactId props) "") eqn:Ec; [discriminate|].
    destruct (bookingTimes _) as [e|[st en]]; [discriminate|].
    destruct (dateParse _ st); [|discriminate].
    destruct (dateParse _ en); [|discriminate].
    intros [= <-]. cbn. auto. }
  destruct Hfields as (Hc & Ec & Et).
  assert (Ht : String.eqb (reqTitle req) "" = false) by (rewrite Et; reflexivity).
  unfold appointmentRoute_request, bodyOfRequest, falsy.
  cbn [bodyContactId bodyStartTime bodyEndTime bodyTitle bodyDescription].
  rewrite Hc, Hs, He, Ht. cbn [orb orElse].
  rewrite Hc, Hs, He, Ht.
  unfold createAppointment_payload.
  split.
  - destruct (String.eqb (orElse (GHL_API_TOKEN env) "") ""); discriminate.
  - intros Htok.
    assert (Hk : String.eqb (orElse (GHL_API_TOKEN env) "") "" = false).
    { unfold orElse. destruct (GHL_API_TOKEN env) as [tok|]; [|discriminate].
      cbn in Htok. rewrite Htok. exact Htok. }
    rewrite Hk. eexists _, slot. split; [reflexivity|].
    cbn. repeat split; auto.
Qed.

Lemma posted_booking_reaches_provider_unchanged_witness :
  let req := mkBookingRequest "contact-1" "2025-11-03T16:00:00-06:00"
               "2025-11-03T16:45:00-06:00" "Kickoff - Clinica"
               "Videollamada de kickoff con Ana de Clinica" in
  let env := mkServerEnv (Some "token") (Some "cal") None None in
  appointmentRoute_request env (bodyOfRequest req true) <> Reply400 /\
  exists (p : GhlPayload) (slot : TimeSlot),
    appointmentRoute_request env (bodyOfRequest req true) = CallProvider p /\
    findSlot (availableSlots (stateWithSlot (Some "2025-11-03T16:00:00-06:00")))
      "17:00:00" = Some slot /\
    originalGHLTime slot = Some (payStartTime p) /\
    payEndTime p = "2025-11-03T16:45:00-06:00" /\
    payContactId p = "contact-1" /\
    payTitle p = "Kickoff - Clinica" /\
    payIgnoreFreeSlotValidation p = true.
Proof.
  intros req env.
  destruct (posted_booking_reaches_provider_unchanged noLegacyParse sampleProps
              (stateWithSlot (Some "2025-11-03T16:00:00-06:00")) req env true)
    as [H1 H2].
  - vm_compute. reflexivity.
  - split; [exact H1|]. apply H2. reflexivity.
Defined.

(** ** The schedule fields sent to the webhook *)

(** X7.  For a start timestamp in the provider's format, the webhook's
    [scheduledDate] is its date; its [scheduledTime] is the clock
    reading "HH:MM:SS" when the offset is negative, and the clock
    reading with the offset still attached when the offset is positive. *)
Theorem webhookSchedule_of_provider_timestamp (ts : string) (m : GhlMatch) :
  ghlMatch ts = Some m ->
  webhookSchedule ts
  = Some (ghlDate m,
          if String.prefix "-" (ghlOffsetStr m)
          then ghlHour m ++ ":" ++ ghlMin m ++ ":" ++ ghlSec m
          else ghlHour m ++ ":" ++ ghlMin m ++ ":" ++ ghlSec m ++ ghlOffsetStr m).
Proof.
  unfold ghlMatch.
  destruct (matchClasses ghlPattern ts) eqn:E; [|discriminate].
  intros [= <-]. unfold ghlPattern in E.
  do 25 (peel E ts).
  destruct ts; [clear E|discriminate E].
  repeat match goal with
         | H : isChar _ _ = true |- _ => apply isChar_eq in H; subst
         end.
  cbn [String.substring ghlDate ghlHour ghlMin ghlSec ghlOffsetStr append].
  rewrite prefix_single.
  unfold webhookSchedule.
  change (String c (String c0 (String c1 (String c2 (String "-" (String c4
            (String c5 (String "-" (String c7 (String c8 (String "T" ?r)))))))))))
    with (String c (String c0 (String c1 (String c2 (String "-" (String c4
            (String c5 (String "-" (String c7 (String c8 ""))))))))) ++ String "T" r).
  rewrite split_piece
    by digits_lack.
  apply orb_true_iff in Hc18.
  destruct Hc18 as [Hs|Hs]; apply Ascii.eqb_eq in Hs; subst c18.
  - rewrite split_lacks
      by digits_lack.
    cbn [nth_error nth]. rewrite split_lacks
      by digits_lack.
    reflexivity.
  - rewrite split_lacks
      by digits_lack.
    cbn [nth_error nth].
    change (String c10 (String c11 (String ":" (String c13 (String c14 (String ":"
              (String c16 (String c17 (String "-" ?r)))))))))
      with (String c10 (String c11 (String ":" (String c13 (String c14 (String ":"
              (String c16 (String c17 ""))))))) ++ String "-" r).
    rewrite split_piece
      by digits_lack.
    reflexivity.
Qed.

Lemma webhookSchedule_of_provider_timestamp_witness :
  webhookSchedule "2025-11-03T16:00:00+01:00"
  = Some ("2025-11-03", "16" ++ ":" ++ "00" ++ ":" ++ "00" ++ "+01:00").
Proof.
  apply (webhookSchedule_of_provider_timestamp "2025-11-03T16:00:00+01:00"
           (mkGhlMatch "2025-11-03" "16" "00" "00" "+01:00")).
  vm_compute. reflexivity.
Defined.

(** ** Changing the timezone *)



(** ** Reading the cache after a range fetch *)

Lemma objGet_objSet {A : Type} (o : list (string * A)) (k : string) (v : A)
  (k' : string) :
  objGet (objSet o k v) k' = if String.eqb k k' then Some v else objGet o k'.
Proof.
  induction o as [|[k0 v0] o IH]; simpl.
  - reflexivity.
  - destruct (String.eqb_spec k0 k) as [->|Hne]; simpl.
    + destruct (String.eqb k k'); reflexivity.
    + rewrite IH. destruct (String.eqb_spec k0 k') as [->|Hne'].
      * apply String.eqb_neq in Hne. rewrite String.eqb_sym in Hne.
        now rewrite Hne.
      * reflexivity.
Qed.

Section CacheLookup.

Variable zoneRules : string -> option (Z -> Z).
Variable hour24 : bool.
Variable legacyDateParse : string -> option Z.

(** After the map is filled, each key that was visited holds the
    conversion of the response's entry under that key. *)
Lemma fillSlotsMap_objGet (tz : string) (data : SlotsData) (keys : list string) :
  forall (acc m : SlotsMap),
    fillSlotsMap zoneRules hour24 legacyDateParse tz data keys acc = Some m ->
    forall k,
      (In k keys ->
       objGet m k = convertEntry zoneRules hour24 legacyDateParse tz (objGet data k)) /\
      (~ In k keys -> objGet m k = objGet acc k).
Proof.
  induction keys as [|k0 keys IH]; simpl; intros acc m H k.
  - injection H as <-. tauto.
  - destruct (convertEntry zoneRules hour24 legacyDateParse tz (objGet data k0))
      as [l0|] eqn:E0; [|discriminate].
    destruct (IH _ _ H k) as [Hin Hout].
    destruct (in_dec string_dec k keys) as [Hk|Hk].
    + split; [intros _; exact (Hin Hk) | tauto].
    + split.
      * intros [->|Hk']; [|tauto].
        rewrite (Hout Hk), objGet_objSet, String.eqb_refl. now rewrite E0.
      * intros Hn. rewrite (Hout Hk), objGet_objSet.
        destruct (String.eqb_spec k0 k) as [->|_]; [tauto | reflexivity].
Qed.

(** X9.  Once a started range fetch has resolved with a response whose
    conversion succeeds, choosing any date the response lists shows the
    converted slots of that date straight from the cache: no request is
    started for it. *)
Theorem date_in_range_response_is_served_from_cache
  (render live0 st0 : State) (p : Pending) (data : SlotsData) (m : SlotsMap)
  (live : State) (date : string) :
  fetchAllAvailableSlots_begin zoneRules render live0 = (st0, Some p) ->
  buildSlotsMap zoneRules hour24 legacyDateParse (selectedTimezone render) data
  = Some m ->
  In date (objKeys data) -> date <> "" ->
  let st := handleDateSelect date
              (fetchAllAvailableSlots_resolve zoneRules hour24 legacyDateParse
                 p (JsonObject data) live) in
  exists l : list TimeSlot,
    convertEntry zoneRules hour24 legacyDateParse (selectedTimezone render)
      (objGet data date) = Some l /\
    dateEffect zoneRules legacyDateParse st = (setAvailableSlots l st, None).
Proof.
  intros Hb Hm Hin Hne st.
  destruct (beginAll_guard _ _ _ _ _ Hb) as [Hc Hg'].
  assert (Ha : allSlots (fetchAllAvailableSlots_resolve zoneRules hour24
                           legacyDateParse p (JsonObject data) live) = m).
  { unfold fetchAllAvailableSlots_resolve.
    rewrite Hg', String.eqb_refl, Hc. cbn [negb]. rewrite Hm. reflexivity. }
  destruct (fillSlotsMap_objGet _ data (objKeys data) [] m Hm date) as [Hg _].
  specialize (Hg Hin).
  assert (Hst : allSlots st = m) by exact Ha.
  assert (Hsd : selectedDate st = date) by reflexivity.
  unfold dateEffect. rewrite Hsd, Hst.
  apply String.eqb_neq in Hne. rewrite Hne.
  destruct (objGet m date) as [l|] eqn:El.
  - exists l. split; [now rewrite <- Hg | reflexivity].
  - exfalso.
    (* every visited key is present in a map that was built *)
    unfold buildSlotsMap in Hm.
    assert (Hall : forall keys acc m', fillSlotsMap zoneRules hour24 legacyDateParse
                   (selectedTimezone render) data keys acc = Some m' ->
                 forall k, In k keys ->
                 convertEntry zoneRules hour24 legacyDateParse
                   (selectedTimezone render) (objGet data k) <> None).
    { induction keys as [|k0 keys IH]; simpl; intros acc m' H k Hk; [contradiction|].
      destruct (convertEntry zoneRules hour24 legacyDateParse _ (objGet data k0))
        as [l0|] eqn:E0; [|discriminate].
      destruct Hk as [->|Hk]; [congruence | exact (IH _ _ H k Hk)]. }
    apply (Hall _ _ _ Hm date Hin). now rewrite <- Hg.
Qed.

End CacheLookup.

Lemma date_in_range_response_is_served_from_cache_witness :
  let st := handleDateSelect "2025-11-03"
              (fetchAllAvailableSlots_resolve sampleZones false noLegacyParse
                 (mkPending mountedMexico "America/Mexico_City" "")
                 (JsonObject sampleData) mountedMexico) in
  exists l : list TimeSlot,
    convertEntry sampleZones false noLegacyParse (selectedTimezone mountedMexico)
      (objGet sampleData "2025-11-03") = Some l /\
    dateEffect sampleZones noLegacyParse st = (setAvailableSlots l st, None).
Proof.
  apply (date_in_range_response_is_served_from_cache sampleZones false noLegacyParse
           mountedMexico mountedMexico (setInitialLoading true mountedMexico)
           (mkPending mountedMexico "America/Mexico_City" "")
           sampleData [("2025-11-03", [slotAt "16:00:00"])]).
  - reflexivity.
  - vm_compute. reflexivity.
  - simpl. tauto.
  - discriminate.
Defined.

(** ** The timezone label *)

(** X10.  When a zone stands, at the current instant, at the offset a
    provider timestamp carries (less than twelve hours either way, with
    minutes below 60, and not written "-00:00"), the label of that zone
    is "GMT", the offset exactly as the timestamp writes it, a blank and
    the zone name. *)
Theorem getTimezoneLabel_shows_timestamp_offset
  (zoneRules : string -> option (Z -> Z)) (hour24 : bool)
  (tz ts : string) (m : GhlMatch) (f : Z -> Z) (now : Z) :
  ghlMatch ts = Some m ->
  zoneRules tz = Some f ->
  f now = offsetMinutesOf m ->
  -720 < offsetMinutesOf m < 720 ->
  digitsValue (String.substring 4 2 (ghlOffsetStr m)) < 60 ->
  ghlOffsetStr m <> "-00:00" ->
  getTimezoneLabel zoneRules hour24 tz now
  = Some ("GMT" ++ ghlOffsetStr m ++ " " ++ tz).
Proof.
  intros Hm Hz Hf Hr Hmin Hneg.
  unfold getTimezoneLabel.
  destruct (getTimezoneOffset_closed_range zoneRules hour24 tz f now Hz)
    as (r & k & -> & Br & Er).
  replace r with (offsetMinutesOf m) by lia. clear Er Br k r.
  unfold ghlMatch in Hm.
  destruct (matchClasses ghlPattern ts) eqn:E; [|discriminate].
  injection Hm as <-. unfold ghlPattern in E.
  do 25 (peel E ts).
  destruct ts; [clear E|discriminate E].
  repeat match goal with
         | H : isChar _ _ = true |- _ => apply isChar_eq in H; subst
         end.
  unfold offsetMinutesOf in *.
  cbn [String.substring ghlOffsetStr] in *.
  rewrite prefix_single in *.
  rewrite !digitsValue_two in *.
  pose proof (digitValue_range c19 Hc19). pose proof (digitValue_range c20 Hc20).
  pose proof (digitValue_range c22 Hc22). pose proof (digitValue_range c23 Hc23).
  pose proof (pad2_of_digits c19 c20 Hc19 Hc20) as Ph.
  pose proof (pad2_of_digits c22 c23 Hc22 Hc23) as Pm.
  set (oh := 10 * digitValue c19 + digitValue c20) in *.
  set (om := 10 * digitValue c22 + digitValue c23) in *.
  cbn [jsAbs jsFloorDiv jsRem jsLift2 jsGe jsToString].
  assert (Ea : Z.abs ((if Ascii.eqb c18 "-" then -1 else 1) * (oh * 60 + om))
               = oh * 60 + om).
  { destruct (Ascii.eqb c18 "-"); lia. }
  rewrite Ea.
  replace ((oh * 60 + om) / 60) with oh
    by (apply Z.div_unique with om; lia).
  replace (Z.rem (oh * 60 + om) 60) with om.
  2:{ rewrite Z.rem_mod_nonneg by lia.
      apply Z.mod_unique with oh; lia. }
  rewrite Ph, Pm.
  apply orb_true_iff in Hc18.
  destruct Hc18 as [Hs|Hs]; apply Ascii.eqb_eq in Hs; subst c18.
  - change (Ascii.eqb "+" "-") with false. cbv iota.
    replace (0 <=? 1 * (oh * 60 + om)) with true
      by (symmetry; apply Z.leb_le; lia).
    reflexivity.
  - change (Ascii.eqb "-" "-") with true. cbv iota.
    replace (0 <=? -1 * (oh * 60 + om)) with false.
    + reflexivity.
    + symmetry. apply Z.leb_gt.
      assert (oh * 60 + om <> 0); [|lia].
      intros Z0. assert (oh = 0 /\ om = 0) as [Zh Zm] by lia.
      apply Hneg.
      rewrite Zh in Ph. rewrite Zm in Pm.
      change (padStart0 2 (toString 0)) with "00" in Ph, Pm.
      injection Ph as <- <-. injection Pm as <- <-. reflexivity.
Qed.

Lemma getTimezoneLabel_shows_timestamp_offset_witness :
  getTimezoneLabel sampleZones false "America/Mexico_City" 1762207200000
  = Some ("GMT" ++ "-06:00" ++ " " ++ "America/Mexico_City").
Proof.
  apply (getTimezoneLabel_shows_timestamp_offset sampleZones false
           "America/Mexico_City" "2025-11-03T16:00:00-06:00"
           (mkGhlMatch "2025-11-03" "16" "00" "00" "-06:00") (fun _ => -360)).
  - vm_compute. reflexivity.
  - reflexivity.
  - vm_compute. reflexivity.
  - vm_compute. split; reflexivity.
  - vm_compute. reflexivity.
  - discriminate.
Defined.

(** ** The calendar grid *)

Lemma daysInMonth_bounds (y m : Z) : 28 <= daysInMonth y m <= 31.
Proof.
  unfold daysInMonth.
  destruct (m =? 2); [destruct (isLeapYear y); lia|].
  destruct (_ || _); lia.
Qed.

Lemma month_cases (m : Z) :
  0 <= m <= 11 ->
  m = 0 \/ m = 1 \/ m = 2 \/ m = 3 \/ m = 4 \/ m = 5 \/ m = 6 \/ m = 7 \/
  m = 8 \/ m = 9 \/ m = 10 \/ m = 11.
Proof. lia. Qed.

Lemma prevDay_valid (d : CalDate) : validDate d -> validDate (prevDay d).
Proof.
  destruct d as [y m dd]. unfold validDate, prevDay. cbn.
  intros [Hm Hd].
  destruct (Z.ltb_spec 1 dd); cbn; [lia|].
  destruct (Z.eqb_spec m 0); cbn.
  - split; [lia|]. change (11 + 1) with 12. unfold daysInMonth. cbn. lia.
  - replace (m - 1 + 1) with m by lia.
    pose proof (daysInMonth_bounds y m). lia.
Qed.

Lemma nextDay_valid (d : CalDate) : validDate d -> validDate (nextDay d).
Proof.
  destruct d as [y m dd]. unfold validDate, nextDay. cbn.
  intros [Hm Hd].
  destruct (Z.ltb_spec dd (daysInMonth y (m + 1))); cbn; [lia|].
  destruct (Z.eqb_spec m 11); cbn.
  - pose proof (daysInMonth_bounds (y + 1) (0 + 1)). lia.
  - pose proof (daysInMonth_bounds y (m + 1 + 1)). lia.
Qed.

Lemma nextDay_prevDay (d : CalDate) : validDate d -> nextDay (prevDay d) = d.
Proof.
  destruct d as [y m dd]. unfold validDate, prevDay, nextDay. cbn.
  intros [Hm Hd].
  destruct (Z.ltb_spec 1 dd); cbn.
  - destruct (Z.ltb_spec (dd - 1) (daysInMonth y (m + 1))); [|lia].
    f_equal; lia.
  - assert (dd = 1) by lia. subst dd.
    destruct (Z.eqb_spec m 0); cbn.
    + subst m. change (daysInMonth (y - 1) (11 + 1)) with 31. cbn.
      f_equal; lia.
    + replace (m - 1 + 1) with m by lia.
      rewrite Z.ltb_irrefl.
      destruct (Z.eqb_spec (m - 1) 11); [lia|].
      f_equal; lia.
Qed.

Lemma leap_february (y : Z) :
  daysFromCivil y 3 1 - daysFromCivil y 2 1 = daysInMonth y 2.
Proof.
  unfold daysFromCivil, daysInMonth, isLeapYear. cbn.
  destruct (Z.eqb_spec (y mod 4) 0), (Z.eqb_spec (y mod 100) 0),
    (Z.eqb_spec (y mod 400) 0); cbn;
    Z.div_mod_to_equations; lia.
Qed.

Lemma dayNumber_first_of_next (y m : Z) :
  0 <= m <= 10 ->
  daysFromCivil y (m + 2) 1 = daysFromCivil y (m + 1) (daysInMonth y (m + 1)) + 1.
Proof.
  intros Hm.
  destruct (Z.eq_dec m 1) as [->|Hfeb].
  - pose proof (leap_february y) as L.
    change (1 + 2) with 3. change (1 + 1) with 2.
    assert (E : daysFromCivil y 2 (daysInMonth y 2)
                = daysFromCivil y 2 1 + daysInMonth y 2 - 1)
      by (unfold daysFromCivil; change (2 <=? 2) with true;
          change (2 <? 2) with false; cbv iota; lia).
    lia.
  - pose proof (month_cases m ltac:(lia)) as C.
    repeat (destruct C as [C|C]; [subst m|]); try subst m; try lia;
      unfold daysFromCivil, daysInMonth; cbn; lia.
Qed.

Lemma dayNumber_new_year (y : Z) :
  daysFromCivil y 1 1 = daysFromCivil (y - 1) 12 31 + 1.
Proof. unfold daysFromCivil. cbn. lia. Qed.

Lemma dayNumber_prevDay (d : CalDate) :
  validDate d -> dayNumber (prevDay d) = dayNumber d - 1.
Proof.
  destruct d as [y m dd]. unfold validDate, prevDay, dayNumber. cbn.
  intros [Hm Hd].
  destruct (Z.ltb_spec 1 dd); cbn.
  - unfold daysFromCivil. lia.
  - assert (dd = 1) by lia. subst dd.
    destruct (Z.eqb_spec m 0); cbn.
    + subst m. change (0 + 1) with 1. change (11 + 1) with 12.
      rewrite dayNumber_new_year. lia.
    + replace (m - 1 + 1) with m by lia.
      pose proof (dayNumber_first_of_next y (m - 1) ltac:(lia)) as E.
      replace (m - 1 + 2) with (m + 1) in E by lia.
      replace (m - 1 + 1) with m in E by lia. lia.
Qed.

Lemma dayNumber_nextDay (d : CalDate) :
  validDate d -> dayNumber (nextDay d) = dayNumber d + 1.
Proof.
  destruct d as [y m dd]. unfold validDate, nextDay, dayNumber. cbn.
  intros [Hm Hd].
  destruct (Z.ltb_spec dd (daysInMonth y (m + 1))); cbn.
  - unfold daysFromCivil. lia.
  - assert (dd = daysInMonth y (m + 1)) by lia. subst dd.
    destruct (Z.eqb_spec m 11); cbn.
    + subst m. change (0 + 1) with 1. change (11 + 1) with 12.
      change (daysInMonth y 12) with 31.
      pose proof (dayNumber_new_year (y + 1)) as E.
      replace (y + 1 - 1) with y in E by lia. lia.
    + pose proof (dayNumber_first_of_next y m ltac:(lia)) as E.
      replace (m + 1 + 1) with (m + 2) by lia. lia.
Qed.

Lemma subDays_facts (n : nat) :
  forall d, validDate d ->
    validDate (subDays d n) /\
    dayNumber (subDays d n) = dayNumber d - Z.of_nat n /\
    addDays (subDays d n) n = d.
Proof.
  induction n as [|n IH]; intros d Hd.
  - cbn. repeat split; try apply Hd. lia.
  - cbn [subDays].
    destruct (IH (prevDay d) (prevDay_valid d Hd)) as (Hv & Hn & Ha).
    split; [exact Hv|]. split.
    + rewrite Hn, dayNumber_prevDay by exact Hd. lia.
    + (* one more day on from the end of the walk back *)
      clear Hn. revert Ha. generalize (subDays (prevDay d) n) as e.
      intros e Ha.
      assert (G : forall k x, addDays x (S k) = nextDay (addDays x k)).
      { induction k as [|k IHk]; intros x; [reflexivity|].
        cbn [addDays] in *. rewrite <- IHk. reflexivity. }
      rewrite G, Ha. apply nextDay_prevDay. exact Hd.
Qed.

Lemma addDays_facts (n : nat) :
  forall d, validDate d ->
    validDate (addDays d n) /\
    dayNumber (addDays d n) = dayNumber d + Z.of_nat n.
Proof.
  induction n as [|n IH]; intros d Hd.
  - cbn. split; [exact Hd | lia].
  - cbn [addDays].
    destruct (IH (nextDay d) (nextDay_valid d Hd)) as (Hv & Hn).
    split; [exact Hv|].
    rewrite Hn, dayNumber_nextDay by exact Hd. lia.
Qed.

Lemma addDays_add (a b : nat) (d : CalDate) :
  addDays d (a + b) = addDays (addDays d a) b.
Proof.
  revert d. induction a as [|a IH]; intros d; [reflexivity|].
  cbn [Nat.add addDays]. apply IH.
Qed.

Lemma addDays_in_month (y m : Z) (k : nat) :
  1 + Z.of_nat k <= daysInMonth y (m + 1) ->
  addDays (mkCalDate y m 1) k = mkCalDate y m (1 + Z.of_nat k).
Proof.
  assert (G : forall k dd, dd + Z.of_nat k <= daysInMonth y (m + 1) ->
                addDays (mkCalDate y m dd) k = mkCalDate y m (dd + Z.of_nat k)).
  { clear k. induction k as [|k IH]; intros dd H.
    - cbn. f_equal; lia.
    - cbn [addDays]. unfold nextDay. cbn [fullYear monthIndex dayOfMonth].
      destruct (Z.ltb_spec dd (daysInMonth y (m + 1))); [|lia].
      rewrite IH by lia. f_equal; lia. }
  apply G.
Qed.

Lemma first_of_month_valid (y m : Z) : 0 <= m <= 11 -> validDate (mkCalDate y m 1).
Proof.
  intros Hm. split; [exact Hm|]. cbn.
  pose proof (daysInMonth_bounds y (m + 1)). lia.
Qed.

Lemma weekday_bounds (d : CalDate) : 0 <= weekday d < 7.
Proof. unfold weekday. apply Z.mod_pos_bound. lia. Qed.

Lemma generateCalendarDays_nth (s : State) (today : CalDate)
  (beforeNow : CalDate -> bool) (i : nat) :
  (i < 42)%nat ->
  let date := addDays (gridStart (currentMonth s)) i in
  nth_error (generateCalendarDays s today beforeNow) i
  = Some {| cellDate := dateString date;
            cellDay := dayOfMonth date;
            isCurrentMonth := monthIndex date =? monthIndex (currentMonth s);
            isToday := sameDate date today;
            isPast := beforeNow date;
            isSelected := String.eqb (selectedDate s) (dateString date);
            hasSlots := hasSlotsAt (allSlots s) (dateString date) |}.
Proof.
  intros Hi date. unfold generateCalendarDays.
  rewrite nth_error_map, nth_error_seq.
  destruct (Nat.ltb_spec i 42); [reflexivity | lia].
Qed.

(** X11.  The grid has 42 cells; the cell at position [i] is a date of
    the calendar that falls on weekday [i mod 7], so every row runs from
    Sunday to Saturday, and each cell is the day after the one before. *)
Theorem calendar_rows_run_sunday_to_saturday (s : State) (today : CalDate)
  (beforeNow : CalDate -> bool) (i : nat) :
  0 <= monthIndex (currentMonth s) <= 11 ->
  (i < 42)%nat ->
  List.length (generateCalendarDays s today beforeNow) = 42%nat /\
  exists (d : CalDate) (cell : CalendarDay),
    nth_error (generateCalendarDays s today beforeNow) i = Some cell /\
    cellDate cell = dateString d /\ cellDay cell = dayOfMonth d /\
    validDate d /\ weekday d = Z.of_nat i mod 7 /\
    dayNumber d = dayNumber (gridStart (currentMonth s)) + Z.of_nat i.
Proof.
  intros Hm Hi. split.
  { unfold generateCalendarDays. now rewrite length_map, length_seq. }
  set (first := mkCalDate (constructorYear (fullYear (currentMonth s)))
                  (monthIndex (currentMonth s)) 1).
  pose proof (first_of_month_valid (constructorYear (fullYear (currentMonth s)))
                (monthIndex (currentMonth s)) Hm) as Hv. fold first in Hv.
  pose proof (weekday_bounds first) as Hw.
  destruct (subDays_facts (Z.to_nat (weekday first)) first Hv) as (Hsv & Hsn & _).
  assert (Hs : gridStart (currentMonth s) = subDays first (Z.to_nat (weekday first)))
    by reflexivity.
  destruct (addDays_facts i _ Hsv) as (Hav & Han).
  eexists _, _. split; [apply generateCalendarDays_nth; exact Hi|].
  cbn [cellDate cellDay]. rewrite Hs.
  split; [reflexivity|]. split; [reflexivity|]. split; [exact Hav|].
  split; [|exact Han].
  unfold weekday at 1.
  change (daysFromCivil (fullYear ?d) (monthIndex ?d + 1) (dayOfMonth ?d))
    with (dayNumber d).
  rewrite Han, Hsn, Z2Nat.id by lia.
  unfold weekday. fold (dayNumber first).
  set (D := dayNumber first).
  replace (D - (D + 4) mod 7 + Z.of_nat i + 4)
    with (Z.of_nat i + ((D + 4) - (D + 4) mod 7)) by lia.
  rewrite (Z.div_mod (D + 4) 7) at 1 by lia.
  replace (Z.of_nat i + (7 * ((D + 4) / 7) + (D + 4) mod 7 - (D + 4) mod 7))
    with (Z.of_nat i + ((D + 4) / 7) * 7) by lia.
  apply Z.mod_add. lia.
Qed.

Lemma calendar_rows_run_sunday_to_saturday_witness :
  List.length (generateCalendarDays october31 (mkCalDate 2025 9 31) (fun _ => false))
  = 42%nat /\
  exists (d : CalDate) (cell : CalendarDay),
    nth_error (generateCalendarDays october31 (mkCalDate 2025 9 31) (fun _ => false)) 7
    = Some cell /\
    cellDate cell = dateString d /\ cellDay cell = dayOfMonth d /\
    validDate d /\ weekday d = Z.of_nat 7 mod 7 /\
    dayNumber d = dayNumber (gridStart (currentMonth october31)) + Z.of_nat 7.
Proof.
  apply (calendar_rows_run_sunday_to_saturday october31 (mkCalDate 2025 9 31)
           (fun _ => false) 7).
  - cbn. lia.
  - lia.
Defined.

(** X12.  Every day of the displayed month (of a year that the [Date]
    constructor does not read as 19xx) has its cell in the grid, marked
    as belonging to the current month and keyed by its date. *)
Theorem calendar_grid_covers_month (s : State) (today : CalDate)
  (beforeNow : CalDate -> bool) (k : Z) :
  0 <= monthIndex (currentMonth s) <= 11 ->
  fullYear (currentMonth s) < 0 \/ 99 < fullYear (currentMonth s) ->
  1 <= k <= daysInMonth (fullYear (currentMonth s)) (monthIndex (currentMonth s) + 1) ->
  exists (i : nat) (cell : CalendarDay),
    (i < 42)%nat /\
    nth_error (generateCalendarDays s today beforeNow) i = Some cell /\
    cellDate cell
    = dateString (mkCalDate (fullYear (currentMonth s)) (monthIndex (currentMonth s)) k) /\
    cellDay cell = k /\
    isCurrentMonth cell = true.
Proof.
  intros Hm Hy Hk.
  assert (Ey : constructorYear (fullYear (currentMonth s)) = fullYear (currentMonth s)).
  { unfold constructorYear.
    destruct (Z.leb_spec 0 (fullYear (currentMonth s)));
      destruct (Z.leb_spec (fullYear (currentMonth s)) 99); cbn; lia. }
  set (y := fullYear (currentMonth s)) in *.
  set (m := monthIndex (currentMonth s)) in *.
  set (first := mkCalDate y m 1).
  pose proof (first_of_month_valid y m Hm) as Hv. fold first in Hv.
  pose proof (weekday_bounds first) as Hw.
  pose proof (daysInMonth_bounds y (m + 1)) as Hb.
  destruct (subDays_facts (Z.to_nat (weekday first)) first Hv) as (_ & _ & Hback).
  assert (Hs : gridStart (currentMonth s) = subDays first (Z.to_nat (weekday first))).
  { unfold gridStart. fold y m. rewrite Ey. reflexivity. }
  set (i := (Z.to_nat (weekday first) + Z.to_nat (k - 1))%nat).
  assert (Hi : (i < 42)%nat) by (unfold i; lia).
  assert (Hd : addDays (gridStart (currentMonth s)) i = mkCalDate y m k).
  { unfold i. rewrite addDays_add, Hs, Hback. unfold first.
    rewrite addDays_in_month by lia. f_equal; lia. }
  eexists i, _. split; [exact Hi|].
  split; [apply generateCalendarDays_nth; exact Hi|].
  cbn [cellDate cellDay isCurrentMonth]. rewrite Hd.
  cbn [dayOfMonth monthIndex]. fold m.
  repeat split. apply Z.eqb_refl.
Qed.

Lemma calendar_grid_covers_month_witness :
  exists (i : nat) (cell : CalendarDay),
    (i < 42)%nat /\
    nth_error (generateCalendarDays october31 (mkCalDate 2025 9 31) (fun _ => false)) i
    = Some cell /\
    cellDate cell = dateString (mkCalDate 2025 9 31) /\
    cellDay cell = 31 /\
    isCurrentMonth cell = true.
Proof.
  apply (calendar_grid_covers_month october31 (mkCalDate 2025 9 31)
           (fun _ => false) 31).
  - cbn. lia.
  - cbn. lia.
  - vm_compute. split; discriminate.
Defined.





(** ** Month prefixes and date keys *)

Lemma toString_four_digits (y : Z) :
  1000 <= y <= 9999 ->
  fourDigits (toString y) = true /\ digitsValue (toString y) = y.
Proof.
  intros Hy.
  assert (E : ((y <? 1000)
               || (fourDigits (toString y) && (digitsValue (toString y) =? y))) = true).
  { apply (range_check (fun y => (y <? 1000)
               || (fourDigits (toString y) && (digitsValue (toString y) =? y)))
             (Z.to_nat 10000)).
    - vm_compute. reflexivity.
    - rewrite Z2Nat.id; lia. }
  destruct (Z.ltb_spec y 1000); [lia|]. cbn in E.
  apply andb_true_iff in E. destruct E as [E1 E2].
  apply Z.eqb_eq in E2. auto.
Qed.

Lemma fourDigits_shape (s : string) :
  fourDigits s = true ->
  exists a b c e, s = String a (String b (String c (String e ""))).
Proof.
  destruct s as [|a [|b [|c [|e [|? ?]]]]]; simpl; try discriminate.
  intros _. exists a, b, c, e. reflexivity.
Qed.

(** X14.  For four-digit years, the key of a date starts with the prefix
    of a month exactly when the date lies in that month of that year:
    the prefix under which month navigation looks up the cache picks
    the keys of the grid cells of the target month and no others. *)
Theorem month_prefix_selects_month (d target : CalDate) :
  1000 <= fullYear d <= 9999 -> 1000 <= fullYear target <= 9999 ->
  0 <= monthIndex d <= 11 -> 0 <= monthIndex target <= 11 ->
  1 <= dayOfMonth d <= 31 ->
  (startsWith (dateString d) (monthPrefixOf target) = true <->
   fullYear d = fullYear target /\ monthIndex d = monthIndex target).
Proof.
  intros Hy Hy' Hm Hm' Hd.
  destruct (toString_four_digits _ Hy) as [F V].
  destruct (toString_four_digits _ Hy') as [F' V'].
  assert (M : 0 <= monthIndex d + 1 < 100) by lia.
  assert (M' : 0 <= monthIndex target + 1 < 100) by lia.
  assert (Dd : 0 <= dayOfMonth d < 100) by lia.
  pose proof (pad2_inj _ _ M M') as Im.
  unfold startsWith, dateString, monthPrefixOf.
  destruct (fourDigits_shape _ F) as (a & b & c & e & Ey).
  destruct (fourDigits_shape _ F') as (a' & b' & c' & e' & Ey').
  destruct (twoDigits_shape _ (pad2_twoDigits _ M)) as (m1 & m2 & Em & _).
  destruct (twoDigits_shape _ (pad2_twoDigits _ M')) as (m1' & m2' & Em' & _).
  destruct (twoDigits_shape _ (pad2_twoDigits _ Dd)) as (d1 & d2 & Ed & _).
  rewrite Ey, Ey', Em, Em', Ed in *. cbn [append].
  rewrite prefix_correct. cbn [String.length String.substring].
  split.
  - intros [= -> -> -> -> -> ->].
    split; [congruence | specialize (Im eq_refl); lia].
  - intros [Eyy Emm].
    assert (E1 : String a (String b (String c (String e "")))
                 = String a' (String b' (String c' (String e' ""))))
      by (rewrite <- Ey, <- Ey', Eyy; reflexivity).
    assert (E2 : String m1 (String m2 "") = String m1' (String m2' ""))
      by (rewrite <- Em, <- Em', Emm; reflexivity).
    injection E1 as -> -> -> ->. injection E2 as -> ->. reflexivity.
Qed.

Lemma month_prefix_selects_month_witness :
  startsWith (dateString (mkCalDate 2025 10 12)) (monthPrefixOf (mkCalDate 2025 10 1))
  = true <-> 2025 = 2025 /\ 10 = 10.
Proof.
  apply (month_prefix_selects_month (mkCalDate 2025 10 12) (mkCalDate 2025 10 1));
    cbn; lia.
Defined.

(** ** Navigating back and forth *)

(** X15.  One month back and then one month on, or the other way
    round, returns to the first of the month that was displayed. *)
Theorem navigateMonth_round_trip (s : State) :
  0 <= monthIndex (currentMonth s) <= 11 ->
  let home := mkCalDate (fullYear (currentMonth s)) (monthIndex (currentMonth s)) 1 in
  currentMonth (navigateMonth next (navigateMonth prev s)) = home /\
  currentMonth (navigateMonth prev (navigateMonth next s)) = home.
Proof.
  intros Hm home.
  assert (G : forall d1 d2,
             currentMonth (navigateMonth d2 (navigateMonth d1 s))
             = setMonth (setDate1 (currentMonth (navigateMonth d1 s)))
                 (monthIndex (setDate1 (currentMonth (navigateMonth d1 s)))
                  + match d2 with prev => -1 | next => 1 end))
    by (intros; apply navigateMonth_currentMonth).
  assert (K : forall d1 d2,
             match d1, d2 with prev, next | next, prev => True | _, _ => False end ->
             currentMonth (navigateMonth d2 (navigateMonth d1 s)) = home).
  { intros d1 d2 Hopp.
    pose proof (setMonth_from_first (currentMonth s)
                  match d1 with prev => -1 | next => 1 end) as (A1 & A2 & A3).
    rewrite <- navigateMonth_currentMonth in A1, A2, A3.
    pose proof (setMonth_from_first (currentMonth (navigateMonth d1 s))
                  match d2 with prev => -1 | next => 1 end) as (B1 & B2 & B3).
    rewrite <- G in B1, B2, B3.
    destruct (currentMonth (navigateMonth d2 (navigateMonth d1 s))) as [y2 m2 dd2].
    cbn [fullYear monthIndex dayOfMonth] in *. unfold home.
    destruct d1, d2; try contradiction; f_equal; lia. }
  split; apply K; exact I.
Qed.

Lemma navigateMonth_round_trip_witness :
  currentMonth (navigateMonth next (navigateMonth prev october31)) = mkCalDate 2025 9 1 /\
  currentMonth (navigateMonth prev (navigateMonth next october31)) = mkCalDate 2025 9 1.
Proof.
  apply (navigateMonth_round_trip october31). cbn. lia.
Defined.

(** ** Display times in any zone *)




(** ** How long the posted appointment lasts *)

Lemma twoDigits_values (s : string) :
  twoDigits s = true ->
  parseInt10 s = Num (digitsValue s) /\ 0 <= digitsValue s < 100.
Proof.
  intros H. destruct (twoDigits_shape s H) as (a & b & -> & Ha & Hb).
  rewrite digitsValue_two. exact (parseInt_two_digits a b Ha Hb).
Qed.

Lemma ghlMatch_clock_digits (s : string) (m : GhlMatch) :
  ghlMatch s = Some m ->
  twoDigits (ghlHour m) = true /\ twoDigits (ghlMin m) = true.
Proof.
  unfold ghlMatch.
  destruct (matchClasses ghlPattern s) eqn:E; [|discriminate].
  intros [= <-]. unfold ghlPattern in E.
  do 25 (peel E s).
  cbn [String.substring ghlHour ghlMin twoDigits].
  rewrite Hc10, Hc11, Hc13, Hc14. auto.
Qed.

(** X17.  When the start timestamp is a date, so is the end timestamp
    of the request, and it lies exactly 45 minutes after the start for a
    slot that starts before 23:15 on the provider's clock; for a later
    slot, whose end keeps the date while its clock wraps past midnight,
    it lies 23 hours and 15 minutes before the start. *)
Theorem booking_interval_length (ts : string) (m : GhlMatch) (t : Z) :
  ghlMatch ts = Some m ->
  parseOffsetTimestamp ts = Some t ->
  parseOffsetTimestamp (bookingEndTime m)
  = Some (if digitsValue (ghlHour m) * 60 + digitsValue (ghlMin m) + 45 <? 1440
          then t + 45 * 60000
          else t + 45 * 60000 - 1440 * 60000).
Proof.
  intros Hm Hp.
  destruct (bookingEndTime_groups ts m Hm)
    as (m' & h & mi & Ph & Pm & Rh & Rm & Hen & Hd & Hs & Ho & Peh & Pem & _).
  destruct (ghlMatch_clock_digits _ _ Hm) as [Th Tm].
  destruct (ghlMatch_clock_digits _ _ Hen) as [Th' Tm'].
  destruct (twoDigits_values _ Th) as [Vh _].
  destruct (twoDigits_values _ Tm) as [Vm _].
  destruct (twoDigits_values _ Th') as [Vh' _].
  destruct (twoDigits_values _ Tm') as [Vm' _].
  rewrite Vh in Ph. rewrite Vm in Pm. rewrite Vh' in Peh. rewrite Vm' in Pem.
  injection Ph as Ph. injection Pm as Pm. injection Peh as Peh. injection Pem as Pem.
  unfold parseOffsetTimestamp in *. rewrite Hm in Hp. rewrite Hen.
  cbv zeta in *. rewrite Hd, Hs, Ho, Peh, Pem. rewrite Ph, Pm in *.
  set (total := h * 60 + mi + 45) in *.
  pose proof (Z.mod_pos_bound (total / 60) 24 ltac:(lia)) as Bh.
  pose proof (Z.mod_pos_bound total 60 ltac:(lia)) as Bm.
  match type of Hp with
  | (if ?c then _ else _) = _ => destruct c eqn:Ec; [|discriminate]
  end.
  apply some_inj in Hp.
  rewrite !andb_true_iff in Ec.
  destruct Ec as ((((((((C1 & C2) & C3) & C4) & C5) & C6) & C7) & C8) & C9).
  rewrite C1, C2, C3, C4, C7, C8, C9. cbn [andb].
  replace ((total / 60) mod 24 <=? 23) with true by (symmetry; apply Z.leb_le; lia).
  replace (total mod 60 <=? 59) with true by (symmetry; apply Z.leb_le; lia).
  cbn [andb]. f_equal.
  pose proof (Z.div_mod total 60 ltac:(lia)) as Dt.
  assert (Q : 0 <= total / 60 < 48).
  { split; [apply Z.div_pos; lia|]. apply Z.div_lt_upper_bound; lia. }
  destruct (Z.ltb_spec total 1440).
  - assert (total / 60 < 24) by (apply Z.div_lt_upper_bound; lia).
    rewrite (Z.mod_small (total / 60) 24) by lia.
    unfold total in *. lia.
  - assert (24 <= total / 60) by (apply Z.div_le_lower_bound; lia).
    assert (Em : (total / 60) mod 24 = total / 60 - 24).
    { symmetry. apply Z.mod_unique with 1; lia. }
    rewrite Em. unfold total in *. lia.
Qed.

Lemma booking_interval_length_witness :
  parseOffsetTimestamp "2025-11-03T00:15:00-06:00"
  = Some (1762234200000 + 45 * 60000 - 1440 * 60000).
Proof.
  apply (booking_interval_length "2025-11-03T23:30:00-06:00"
           (mkGhlMatch "2025-11-03" "23" "30" "00" "-06:00") 1762234200000).
  - vm_compute. reflexivity.
  - vm_compute. reflexivity.
Defined.
